(** * stock-dashboard: the watchlist client of [app.js]

    A shallow embedding of [src/app.js] and the properties of its
    watchlist store, quote/history fetchers, prediction composer and chart
    renderer.

    The browser is single threaded: a handler runs to its next [await]
    without interruption.  The program is therefore modelled as a
    transition system.  A state holds the module-level variables of
    [app.js], the parts of the page the program reads and writes, the
    browser's persistent entry, the requests in flight and the timers
    pending.  An event is a user action, the answer to a request or a
    timer firing.  Each [async] function is cut at its [await]s; what
    remains to run after an [await] is kept with the request as a
    continuation. *)

From Stdlib Require Import Ascii String QArith Lia.
From stdpp Require Import base option list strings.

#[local] Set Warnings "-register-all".
#[local] Arguments String.append !s1 s2 / : simpl nomatch.
#[local] Open Scope nat_scope.

(** ** Strings

    A JS string is kept as a [string] of bytes that holds its UTF-8 form.
    [trim] and [toUpperCase] are the built-ins on the ASCII range: bytes
    above [0x7F] are neither white space nor cased letters here. *)

Module Js.

Definition code (c : ascii) : nat := nat_of_ascii c.

(** White space of [String.prototype.trim] below [0x80]:
    TAB, LF, VT, FF, CR and SPACE. *)
Definition isWhiteSpace (c : ascii) : bool :=
  ((9 <=? code c) && (code c <=? 13)) || (code c =? 32).

Definition isEmpty (s : string) : bool :=
  match s with EmptyString => true | String _ _ => false end.

Fixpoint trimStart (s : string) : string :=
  match s with
  | EmptyString => EmptyString
  | String c r => if isWhiteSpace c then trimStart r else s
  end.

Fixpoint trimEnd (s : string) : string :=
  match s with
  | EmptyString => EmptyString
  | String c r =>
      let t := trimEnd r in
      if isWhiteSpace c && isEmpty t then EmptyString else String c t
  end.

Definition trim (s : string) : string := trimEnd (trimStart s).

Definition upper (c : ascii) : ascii :=
  if (97 <=? code c) && (code c <=? 122) then ascii_of_nat (code c - 32)
  else c.

Fixpoint toUpperCase (s : string) : string :=
  match s with
  | EmptyString => EmptyString
  | String c r => String (upper c) (toUpperCase r)
  end.

(** [!s] for a string: only the empty string is falsy. *)
Definition falsy (s : string) : bool := isEmpty s.

(** [Array.prototype.includes] on an array of strings. *)
Definition includes (l : list string) (x : string) : bool :=
  bool_decide (x ∈ l).

End Js.

(** ** JSON

    [JSON.stringify] on an array of strings and [JSON.parse] on any text.
    A number keeps its literal: the program never computes with a parsed
    number of the persisted entry. *)

Module Json.

Inductive value :=
| Null
| Bool (b : bool)
| Number (literal : string)
| Str (s : string)
| Array (items : list value)
| Object (members : list (string * value)).

(** *** Writing *)

Definition dquote : ascii := ascii_of_nat 34.
Definition backslash : ascii := ascii_of_nat 92.

Definition hexDigit (n : nat) : ascii :=
  ascii_of_nat (if n <? 10 then 48 + n else 87 + n).

(** [QuoteJSONString] for one byte: the two-character escapes, [\u00xx]
    for the other control characters, the byte itself otherwise. *)
Definition escape (c : ascii) : string :=
  let n := Js.code c in
  if n =? 34 then String backslash (String dquote "")
  else if n =? 92 then String backslash (String backslash "")
  else if n =? 8 then "\b"
  else if n =? 12 then "\f"
  else if n =? 10 then "\n"
  else if n =? 13 then "\r"
  else if n =? 9 then "\t"
  else if n <? 32 then
    "\u00" +:+ String (hexDigit (n / 16)) (String (hexDigit (n mod 16)) "")
  else String c "".

Fixpoint escapeAll (s : string) : string :=
  match s with
  | EmptyString => ""
  | String c r => escape c +:+ escapeAll r
  end.

Definition quote (s : string) : string :=
  String dquote (escapeAll s +:+ String dquote "").

Fixpoint joinQuoted (l : list string) : string :=
  match l with
  | [] => ""
  | [s] => quote s
  | s :: r => quote s +:+ "," +:+ joinQuoted r
  end.

(** [JSON.stringify(stocks)] for an array of strings. *)
Definition stringify (l : list string) : string :=
  "[" +:+ joinQuoted l +:+ "]".

(** *** Reading *)

(** JSON white space: SPACE, TAB, LF, CR. *)
Definition isWs (c : ascii) : bool :=
  let n := Js.code c in (n =? 32) || (n =? 9) || (n =? 10) || (n =? 13).

Fixpoint skipWs (s : string) : string :=
  match s with
  | EmptyString => EmptyString
  | String c r => if isWs c then skipWs r else s
  end.

Definition isDigit (c : ascii) : bool :=
  (48 <=? Js.code c) && (Js.code c <=? 57).

Definition hexValue (c : ascii) : option N :=
  let n := Js.code c in
  if (48 <=? n) && (n <=? 57) then Some (N.of_nat (n - 48))
  else if (97 <=? n) && (n <=? 102) then Some (N.of_nat (n - 87))
  else if (65 <=? n) && (n <=? 70) then Some (N.of_nat (n - 55))
  else None.

Definition hex4 (a b c d : ascii) : option N :=
  match hexValue a, hexValue b, hexValue c, hexValue d with
  | Some x, Some y, Some z, Some w =>
      Some (((x * 16 + y) * 16 + z) * 16 + w)%N
  | _, _, _, _ => None
  end.

(** The UTF-8 (for a lone surrogate, generalised UTF-8) bytes of a code
    point, put before [r]. *)
Definition utf8 (n : N) (r : string) : string :=
  let b k := ascii_of_N k in
  (if n <? 128 then String (b n) r
   else if n <? 2048 then
     String (b (192 + n / 64)) (String (b (128 + n mod 64)) r)
   else if n <? 65536 then
     String (b (224 + n / 4096))
       (String (b (128 + (n / 64) mod 64)) (String (b (128 + n mod 64)) r))
   else
     String (b (240 + n / 262144))
       (String (b (128 + (n / 4096) mod 64))
          (String (b (128 + (n / 64) mod 64))
             (String (b (128 + n mod 64)) r))))%N.

Definition isHigh (n : N) : bool := ((55296 <=? n) && (n <? 56320))%N.
Definition isLow (n : N) : bool := ((56320 <=? n) && (n <? 57344))%N.

(** The character a two-character escape stands for. *)
Definition unescape (e : ascii) : option ascii :=
  let n := Js.code e in
  if n =? 34 then Some dquote
  else if n =? 92 then Some backslash
  else if n =? 47 then Some (ascii_of_nat 47)
  else if n =? 98 then Some (ascii_of_nat 8)
  else if n =? 102 then Some (ascii_of_nat 12)
  else if n =? 110 then Some (ascii_of_nat 10)
  else if n =? 114 then Some (ascii_of_nat 13)
  else if n =? 116 then Some (ascii_of_nat 9)
  else None.

Definition isU (c : ascii) : bool := Js.code c =? 117.
Definition isBackslash (c : ascii) : bool := Js.code c =? 92.
Definition isDquote (c : ascii) : bool := Js.code c =? 34.

(** The characters of a string literal after its opening quote, up to
    and including the closing one: the decoded string and the rest of the
    text.  An escaped high surrogate that an escaped low surrogate follows
    is read with it as one code point. *)
Fixpoint stringBody (s : string) : option (string * string) :=
  match s with
  | EmptyString => None
  | String c r =>
      if isDquote c then Some (EmptyString, r)
      else if isBackslash c then
        match r with
        | EmptyString => None
        | String e r1 =>
            match unescape e with
            | Some ch =>
                match stringBody r1 with
                | Some (t, rest) => Some (String ch t, rest)
                | None => None
                end
            | None =>
                if isU e then
                  match r1 with
                  | String h1 (String h2 (String h3 (String h4 r2))) =>
                      match hex4 h1 h2 h3 h4 with
                      | None => None
                      | Some hi =>
                          let single :=
                            match stringBody r2 with
                            | Some (t, rest) => Some (utf8 hi t, rest)
                            | None => None
                            end in
                          if isHigh hi then
                            match r2 with
                            | String b (String u (String l1 (String l2
                                (String l3 (String l4 r3))))) =>
                                match hex4 l1 l2 l3 l4 with
                                | Some lo =>
                                    if isBackslash b && isU u && isLow lo then
                                      match stringBody r3 with
                                      | Some (t, rest) =>
                                          Some (utf8 (65536 + (hi - 55296) * 1024
                                                      + (lo - 56320))%N t, rest)
                                      | None => None
                                      end
                                    else single
                                | None => single
                                end
                            | _ => single
                            end
                          else single
                      end
                  | _ => None
                  end
                else None
            end
        end
      else if Js.code c <? 32 then None
      else
        match stringBody r with
        | Some (t, rest) => Some (String c t, rest)
        | None => None
        end
  end.

Fixpoint digits (s : string) : string * string :=
  match s with
  | EmptyString => (EmptyString, EmptyString)
  | String c r =>
      if isDigit c then let '(d, rest) := digits r in (String c d, rest)
      else (EmptyString, s)
  end.

(** [int frac? exp?] after an optional minus sign. *)
Definition numberTail (s : string) : option (string * string) :=
  let '(int, r) := digits s in
  match int with
  | EmptyString => None
  | String d more =>
      if (Js.code d =? 48) && negb (Js.isEmpty more) then None
      else
        let frac :=
          match r with
          | String dot r1 =>
              if Js.code dot =? 46 then
                let '(f, r2) := digits r1 in
                if Js.isEmpty f then None else Some (String dot f, r2)
              else Some (EmptyString, r)
          | EmptyString => Some (EmptyString, r)
          end in
        match frac with
        | None => None
        | Some (f, r2) =>
            match r2 with
            | String e r3 =>
                if (Js.code e =? 101) || (Js.code e =? 69) then
                  let '(sign, r4) :=
                    match r3 with
                    | String sg r5 =>
                        if (Js.code sg =? 43) || (Js.code sg =? 45)
                        then (String sg EmptyString, r5)
                        else (EmptyString, r3)
                    | EmptyString => (EmptyString, r3)
                    end in
                  let '(x, r6) := digits r4 in
                  if Js.isEmpty x then None
                  else Some (int +:+ f +:+ String e sign +:+ x, r6)
                else Some (int +:+ f, r2)
            | EmptyString => Some (int +:+ f, r2)
            end
        end
  end.

Definition number (s : string) : option (string * string) :=
  match s with
  | String c r =>
      if Js.code c =? 45 then
        match numberTail r with
        | Some (lit, rest) => Some (String c lit, rest)
        | None => None
        end
      else numberTail s
  | EmptyString => None
  end.

(** [keyword k v s]: the text [s] starts with [k]. *)
Fixpoint keyword (k : string) (s : string) : option string :=
  match k with
  | EmptyString => Some s
  | String c k' =>
      match s with
      | String d r => if Js.code c =? Js.code d then keyword k' r else None
      | EmptyString => None
      end
  end.

(** The recursive descent, with [fuel] bounding the depth of calls.  A
    call consumes a character before it calls again, except [elements]
    and [members] calling [parseValue] on their first item: twice the
    length of the text bounds the depth. *)
Fixpoint parseValue (fuel : nat) (s : string) : option (value * string) :=
  match fuel with
  | 0 => None
  | S fuel =>
      match skipWs s with
      | EmptyString => None
      | String c r =>
          let n := Js.code c in
          if n =? 110 then
            match keyword "ull" r with Some r' => Some (Null, r') | None => None end
          else if n =? 116 then
            match keyword "rue" r with
            | Some r' => Some (Bool true, r') | None => None end
          else if n =? 102 then
            match keyword "alse" r with
            | Some r' => Some (Bool false, r') | None => None end
          else if n =? 34 then
            match stringBody r with
            | Some (t, r') => Some (Str t, r')
            | None => None
            end
          else if n =? 91 then
            match skipWs r with
            | String c' r' =>
                if Js.code c' =? 93 then Some (Array [], r')
                else
                  match elements fuel r with
                  | Some (vs, r'') => Some (Array vs, r'')
                  | None => None
                  end
            | EmptyString => None
            end
          else if n =? 123 then
            match skipWs r with
            | String c' r' =>
                if Js.code c' =? 125 then Some (Object [], r')
                else
                  match members fuel r with
                  | Some (ms, r'') => Some (Object ms, r'')
                  | None => None
                  end
            | EmptyString => None
            end
          else
            match number (String c r) with
            | Some (lit, r') => Some (Number lit, r')
            | None => None
            end
      end
  end
with elements (fuel : nat) (s : string) : option (list value * string) :=
  match fuel with
  | 0 => None
  | S fuel =>
      match parseValue fuel s with
      | None => None
      | Some (v, r) =>
          match skipWs r with
          | String c r' =>
              if Js.code c =? 44 then
                match elements fuel r' with
                | Some (vs, r'') => Some (v :: vs, r'')
                | None => None
                end
              else if Js.code c =? 93 then Some ([v], r')
              else None
          | EmptyString => None
          end
      end
  end
with members (fuel : nat) (s : string)
  : option (list (string * value) * string) :=
  match fuel with
  | 0 => None
  | S fuel =>
      match skipWs s with
      | String q r0 =>
          if Js.code q =? 34 then
            match stringBody r0 with
            | None => None
            | Some (k, r1) =>
                match skipWs r1 with
                | String colon r2 =>
                    if Js.code colon =? 58 then
                      match parseValue fuel r2 with
                      | None => None
                      | Some (v, r) =>
                          match skipWs r with
                          | String c r' =>
                              if Js.code c =? 44 then
                                match members fuel r' with
                                | Some (ms, r'') => Some ((k, v) :: ms, r'')
                                | None => None
                                end
                              else if Js.code c =? 125 then Some ([(k, v)], r')
                              else None
                          | EmptyString => None
                          end
                      end
                    else None
                | EmptyString => None
                end
            end
          else None
      | EmptyString => None
      end
  end.

(** [JSON.parse(text)]: [None] is the [SyntaxError] it throws. *)
Definition parse (text : string) : option value :=
  match parseValue (2 * String.length text + 2) text with
  | Some (v, r) => if Js.isEmpty (skipWs r) then Some v else None
  | None => None
  end.

(** The view of a parsed value as an array of strings. *)
Fixpoint strings (items : list value) : option (list string) :=
  match items with
  | [] => Some []
  | Str s :: r =>
      match strings r with Some l => Some (s :: l) | None => None end
  | _ :: _ => None
  end.

End Json.


(** ** Data of the HTTP interface *)

Record Quote := {
  symbol : string;
  name : string;
  price : Q;
  change : Q;
  changePercent : Q
}.

Record HistorySeries := {
  dates : list string;
  prices : list Q
}.

Record Prediction := {
  current_price : Q;
  predicted_change : Q;
  predicted_change_percent : Q;
  predictions : HistorySeries
}.

(** What [await fetch(url)] followed by [await response.json()] yields. *)
Inductive reply (A : Type) :=
| Rejected                  (* [fetch] rejects, or the body is not JSON: the [await] throws *)
| NotOk (error : string)    (* [response.ok] is false; the body is [{error}] *)
| Ok (data : A).            (* [response.ok] is true; the body is as the interface says *)
Arguments Rejected {A}.
Arguments NotOk {A} error.
Arguments Ok {A} data.

(** ** The page *)

(** What the program writes into the [innerHTML] of a card. *)
Inductive markup :=
| Loading                                            (* [<p>Loading...</p>] *)
| Shown (data : Quote) (changeClass changeSign : string)   (* the quote, with its Remove button *)
| ErrorMessage (error : string)                      (* [Error: ${data.error}] *)
| FetchFailed.                                       (* [Failed to fetch data] *)

Record card := {
  element : nat;             (* the identity of the [div] *)
  elementId : string;        (* its [id] *)
  className : string;
  innerHTML : markup;
  onclick : option string    (* [(e) => ... showChart(data.symbol)], kept as its symbol *)
}.

Record button := {
  inChartControls : bool;    (* matched by ['.chart-controls button'] *)
  active : bool;             (* has the class [active] *)
  disabled : bool;
  textContent : string
}.

(** An entry of a dataset: a number, [null] or [undefined]. *)
Inductive cell :=
| null
| undefined
| num (x : Q).

Record dataset := {
  label : string;
  data : list cell;
  borderColor : string;
  backgroundColor : string;
  borderDash : option (list nat);
  tension : Q;
  fill : bool
}.

(** The configuration given to [new Chart]; its [options] other than the
    title text are constants. *)
Record config := {
  chartType : string;
  labels : list string;
  datasets : list dataset;
  title : string
}.

Inductive alert :=
| Alert (text : string)
| PredictionAlert (symbol : string) (current : Q) (final : cell)
    (changeSign : string) (change changePercent : Q).

(** [setTimeout(() => removeStock(symbol), delay)]. *)
Record timer := {
  delay : nat;
  removes : string
}.

(** What remains of an [async] function after an [await]. *)
Inductive continuation :=
| AfterQuote (symbol : string) (card : nat) (clearInput : bool)
    (* [fetchStockData] from line 60 on; [clearInput]: [addStock] awaits it
       and runs its line 40 next *)
| AfterHistory (symbol : string)
    (* [fetchHistory] from line 147 on *)
| AfterPredict (btn : nat)
    (* [showPrediction] from line 166 on *)
| AfterPredictHistory (btn : nat) (data : Prediction).
    (* [showPrediction] from line 171 on *)

Record State := {
  stocks : list string;  (* [let stocks = []] *)
  currentChart : option nat;  (* [let currentChart = null]: the identity of a [Chart] *)
  currentSymbol : option string;  (* [let currentSymbol = null] *)
  currentPeriod : string;  (* [let currentPeriod = '1mo'] *)
  localStorage : option string;  (* the entry ['stocks'] of [localStorage] *)
  stockSymbol : string;  (* the [value] of the input [#stockSymbol] *)
  stockCards : list card;  (* the children of [#stockCards], in document order *)
  chartSection : option string;  (* [style.display] of [#chartSection] *)
  chartTitle : string;  (* [textContent] of [#chartTitle] *)
  buttons : list button;  (* the buttons of the page, in document order *)
  charts : list (nat * config);  (* the [Chart] instances constructed and not destroyed *)
  alerts : list alert;  (* the [alert]s shown, oldest first *)
  console : list string;  (* the lines of [console.error] *)
  timers : list timer;  (* the [setTimeout] callbacks pending *)
  inflight : list (string * continuation);  (* the requests awaiting an answer: URL and what runs then *)
  nextId : nat  (* the supply of object identities *)
}.

(** Assignment to one component of the state. *)
Definition setStocks (v : list string) (st : State) : State :=
  {| stocks := v; currentChart := currentChart st; currentSymbol :=
  currentSymbol st; currentPeriod := currentPeriod st; localStorage :=
  localStorage st; stockSymbol := stockSymbol st; stockCards := stockCards
  st; chartSection := chartSection st; chartTitle := chartTitle st; buttons
  := buttons st; charts := charts st; alerts := alerts st; console :=
  console st; timers := timers st; inflight := inflight st; nextId := nextId
  st |}.
Definition setCurrentChart (v : option nat) (st : State) : State :=
  {| stocks := stocks st; currentChart := v; currentSymbol := currentSymbol
  st; currentPeriod := currentPeriod st; localStorage := localStorage st;
  stockSymbol := stockSymbol st; stockCards := stockCards st; chartSection
  := chartSection st; chartTitle := chartTitle st; buttons := buttons st;
  charts := charts st; alerts := alerts st; console := console st; timers :=
  timers st; inflight := inflight st; nextId := nextId st |}.
Definition setCurrentSymbol (v : option string) (st : State) : State :=
  {| stocks := stocks st; currentChart := currentChart st; currentSymbol :=
  v; currentPeriod := currentPeriod st; localStorage := localStorage st;
  stockSymbol := stockSymbol st; stockCards := stockCards st; chartSection
  := chartSection st; chartTitle := chartTitle st; buttons := buttons st;
  charts := charts st; alerts := alerts st; console := console st; timers :=
  timers st; inflight := inflight st; nextId := nextId st |}.
Definition setCurrentPeriod (v : string) (st : State) : State :=
  {| stocks := stocks st; currentChart := currentChart st; currentSymbol :=
  currentSymbol st; currentPeriod := v; localStorage := localStorage st;
  stockSymbol := stockSymbol st; stockCards := stockCards st; chartSection
  := chartSection st; chartTitle := chartTitle st; buttons := buttons st;
  charts := charts st; alerts := alerts st; console := console st; timers :=
  timers st; inflight := inflight st; nextId := nextId st |}.
Definition setLocalStorage (v : option string) (st : State) : State :=
  {| stocks := stocks st; currentChart := currentChart st; currentSymbol :=
  currentSymbol st; currentPeriod := currentPeriod st; localStorage := v;
  stockSymbol := stockSymbol st; stockCards := stockCards st; chartSection
  := chartSection st; chartTitle := chartTitle st; buttons := buttons st;
  charts := charts st; alerts := alerts st; console := console st; timers :=
  timers st; inflight := inflight st; nextId := nextId st |}.
Definition setStockSymbol (v : string) (st : State) : State :=
  {| stocks := stocks st; currentChart := currentChart st; currentSymbol :=
  currentSymbol st; currentPeriod := currentPeriod st; localStorage :=
  localStorage st; stockSymbol := v; stockCards := stockCards st;
  chartSection := chartSection st; chartTitle := chartTitle st; buttons :=
  buttons st; charts := charts st; alerts := alerts st; console := console
  st; timers := timers st; inflight := inflight st; nextId := nextId st |}.
Definition setStockCards (v : list card) (st : State) : State :=
  {| stocks := stocks st; currentChart := currentChart st; currentSymbol :=
  currentSymbol st; currentPeriod := currentPeriod st; localStorage :=
  localStorage st; stockSymbol := stockSymbol st; stockCards := v;
  chartSection := chartSection st; chartTitle := chartTitle st; buttons :=
  buttons st; charts := charts st; alerts := alerts st; console := console
  st; timers := timers st; inflight := inflight st; nextId := nextId st |}.
Definition setChartSection (v : option string) (st : State) : State :=
  {| stocks := stocks st; currentChart := currentChart st; currentSymbol :=
  currentSymbol st; currentPeriod := currentPeriod st; localStorage :=
  localStorage st; stockSymbol := stockSymbol st; stockCards := stockCards
  st; chartSection := v; chartTitle := chartTitle st; buttons := buttons st;
  charts := charts st; alerts := alerts st; console := console st; timers :=
  timers st; inflight := inflight st; nextId := nextId st |}.
Definition setChartTitle (v : string) (st : State) : State :=
  {| stocks := stocks st; currentChart := currentChart st; currentSymbol :=
  currentSymbol st; currentPeriod := currentPeriod st; localStorage :=
  localStorage st; stockSymbol := stockSymbol st; stockCards := stockCards
  st; chartSection := chartSection st; chartTitle := v; buttons := buttons
  st; charts := charts st; alerts := alerts st; console := console st;
  timers := timers st; inflight := inflight st; nextId := nextId st |}.
Definition setButtons (v : list button) (st : State) : State :=
  {| stocks := stocks st; currentChart := currentChart st; currentSymbol :=
  currentSymbol st; currentPeriod := currentPeriod st; localStorage :=
  localStorage st; stockSymbol := stockSymbol st; stockCards := stockCards
  st; chartSection := chartSection st; chartTitle := chartTitle st; buttons
  := v; charts := charts st; alerts := alerts st; console := console st;
  timers := timers st; inflight := inflight st; nextId := nextId st |}.
Definition setCharts (v : list (nat * config)) (st : State) : State :=
  {| stocks := stocks st; currentChart := currentChart st; currentSymbol :=
  currentSymbol st; currentPeriod := currentPeriod st; localStorage :=
  localStorage st; stockSymbol := stockSymbol st; stockCards := stockCards
  st; chartSection := chartSection st; chartTitle := chartTitle st; buttons
  := buttons st; charts := v; alerts := alerts st; console := console st;
  timers := timers st; inflight := inflight st; nextId := nextId st |}.
Definition setAlerts (v : list alert) (st : State) : State :=
  {| stocks := stocks st; currentChart := currentChart st; currentSymbol :=
  currentSymbol st; currentPeriod := currentPeriod st; localStorage :=
  localStorage st; stockSymbol := stockSymbol st; stockCards := stockCards
  st; chartSection := chartSection st; chartTitle := chartTitle st; buttons
  := buttons st; charts := charts st; alerts := v; console := console st;
  timers := timers st; inflight := inflight st; nextId := nextId st |}.
Definition setConsole (v : list string) (st : State) : State :=
  {| stocks := stocks st; currentChart := currentChart st; currentSymbol :=
  currentSymbol st; currentPeriod := currentPeriod st; localStorage :=
  localStorage st; stockSymbol := stockSymbol st; stockCards := stockCards
  st; chartSection := chartSection st; chartTitle := chartTitle st; buttons
  := buttons st; charts := charts st; alerts := alerts st; console := v;
  timers := timers st; inflight := inflight st; nextId := nextId st |}.
Definition setTimers (v : list timer) (st : State) : State :=
  {| stocks := stocks st; currentChart := currentChart st; currentSymbol :=
  currentSymbol st; currentPeriod := currentPeriod st; localStorage :=
  localStorage st; stockSymbol := stockSymbol st; stockCards := stockCards
  st; chartSection := chartSection st; chartTitle := chartTitle st; buttons
  := buttons st; charts := charts st; alerts := alerts st; console :=
  console st; timers := v; inflight := inflight st; nextId := nextId st |}.
Definition setInflight (v : list (string * continuation)) (st : State) : State :=
  {| stocks := stocks st; currentChart := currentChart st; currentSymbol :=
  currentSymbol st; currentPeriod := currentPeriod st; localStorage :=
  localStorage st; stockSymbol := stockSymbol st; stockCards := stockCards
  st; chartSection := chartSection st; chartTitle := chartTitle st; buttons
  := buttons st; charts := charts st; alerts := alerts st; console :=
  console st; timers := timers st; inflight := v; nextId := nextId st |}.
Definition setNextId (v : nat) (st : State) : State :=
  {| stocks := stocks st; currentChart := currentChart st; currentSymbol :=
  currentSymbol st; currentPeriod := currentPeriod st; localStorage :=
  localStorage st; stockSymbol := stockSymbol st; stockCards := stockCards
  st; chartSection := chartSection st; chartTitle := chartTitle st; buttons
  := buttons st; charts := charts st; alerts := alerts st; console :=
  console st; timers := timers st; inflight := inflight st; nextId := v |}.

(** ** Handlers

    A handler runs on a state and either completes or throws; in both
    cases the writes it made stay. *)

Inductive exn :=
| SyntaxError    (* [JSON.parse] on a malformed text *)
| TypeError      (* a property of [null] or [undefined], a spread of [undefined] *)
| FetchError.    (* the rejection of an awaited request *)

Inductive completion (A : Type) :=
| Normal (a : A) (st : State)
| Throw (e : exn) (st : State).
Arguments Normal {A} a st.
Arguments Throw {A} e st.

Definition M (A : Type) : Type := State -> completion A.

#[global] Instance M_ret : MRet M := fun A a st => Normal a st.
#[global] Instance M_bind : MBind M := fun A B f m st =>
  match m st with
  | Normal a st' => f a st'
  | Throw e st' => Throw e st'
  end.

Definition get : M State := fun st => Normal st st.
Definition modify (f : State -> State) : M unit := fun st => Normal tt (f st).
Definition throw {A} (e : exn) : M A := fun st => Throw e st.

(** [try { body } catch (error) { handler }] *)
Definition tryCatch {A} (body : M A) (handler : exn -> M A) : M A := fun st =>
  match body st with
  | Normal a st' => Normal a st'
  | Throw e st' => handler e st'
  end.

(** [try { body } finally { final }], for a [final] that does not throw. *)
Definition tryFinally {A} (body : M A) (final : State -> State) : M A := fun st =>
  match body st with
  | Normal a st' => Normal a (final st')
  | Throw e st' => Throw e (final st')
  end.

(** The state a handler leaves, however it completes. *)
Definition exec {A} (m : M A) (st : State) : State :=
  match m st with
  | Normal _ st' => st'
  | Throw _ st' => st'
  end.

Fixpoint forEach {A} (l : list A) (f : A -> M unit) : M unit :=
  match l with
  | [] => mret tt
  | x :: r => f x ;; forEach r f
  end.

(** *** The browser *)

Definition API_URL : string := "http://localhost:5000/api".

Definition showAlert (a : alert) : M unit :=
  modify (fun st => setAlerts (alerts st ++ [a]) st).

Definition consoleError (line : string) : M unit :=
  modify (fun st => setConsole (console st ++ [line]) st).

Definition setTimeout (symbol : string) (ms : nat) : M unit :=
  modify (fun st => setTimers (timers st ++ [{| delay := ms; removes := symbol |}]) st).

(** [fetch(url)] awaited: the request is in flight, [k] runs on its answer. *)
Definition fetch (url : string) (k : continuation) : M unit :=
  modify (fun st => setInflight (inflight st ++ [(url, k)]) st).

Definition setItem (text : string) : M unit :=
  modify (setLocalStorage (Some text)).

Definition getElementById (id : string) (st : State) : option card :=
  List.find (fun c => bool_decide (elementId c = id)) (stockCards st).

(** A write to the element [e].  An element out of the document is never put
    back, so a write to it is not kept. *)
Definition onElement (e : nat) (f : card -> card) : M unit :=
  modify (fun st =>
    setStockCards
      ((fun c => if bool_decide (element c = e) then f c else c) <$> stockCards st)
      st).

Definition setInnerHTML (m : markup) (c : card) : card :=
  {| element := element c; elementId := elementId c; className := className c;
     innerHTML := m; onclick := onclick c |}.

(** [card.remove()] *)
Definition removeElement (e : nat) : M unit :=
  modify (fun st =>
    setStockCards (filter (fun c => element c <> e) (stockCards st)) st).

(** [`${v}`] for a variable that holds a string or [null]. *)
Definition text (v : option string) : string :=
  match v with Some s => s | None => "null" end.

(** [!v] for a variable that holds a string or [null]. *)
Definition falsy (v : option string) : bool :=
  match v with Some s => Js.falsy s | None => true end.

(** *** [drawChart] (lines 203-268) *)

Definition solid (l : string) (d : list cell) : dataset :=
  {| label := l; data := d;
     borderColor := "rgb(75, 192, 192)";
     backgroundColor := "rgba(75, 192, 192, 0.1)";
     borderDash := None; tension := 1 # 10; fill := true |}.

Definition dashed (l : string) (d : list cell) : dataset :=
  {| label := l; data := d;
     borderColor := "rgb(255, 152, 0)";
     backgroundColor := "rgba(255, 152, 0, 0.1)";
     borderDash := Some [5; 5]; tension := 1 # 10; fill := true |}.

(** [data[i]] *)
Definition at_ (data : list Q) (i : nat) : cell :=
  match data !! i with Some x => num x | None => undefined end.

(** Lines 210-241.  [splitIndex] is [null] or the length of an array; the
    test [if (splitIndex)] fails on [null] and on [0]. *)
Definition makeDatasets (data : list Q) (splitIndex : option nat) : list dataset :=
  match splitIndex with
  | Some (S m) =>
      [ solid "Historical" (num <$> take (S m) data);
        dashed "Prediction"
          (replicate (S m - 1) null ++ [at_ data (S m - 1)] ++ (num <$> drop (S m) data)) ]
  | Some 0 | None =>
      [ solid "Price" (num <$> data) ]
  end.

(** Lines 206-208: [if (currentChart) currentChart.destroy()]. *)
Definition destroyCurrent (st : State) : State :=
  match currentChart st with
  | Some h => setCharts (filter (fun c => c.1 <> h) (charts st)) st
  | None => st
  end.

(** Lines 243-267: [currentChart = new Chart(ctx, ...)]. *)
Definition newChart (cfg : config) (st : State) : State :=
  let h := nextId st in
  setCurrentChart (Some h) (setCharts (charts st ++ [(h, cfg)]) (setNextId (S h) st)).

Definition drawChart (labels : list string) (data : list Q) (title : string)
    (splitIndex : option nat) : M unit :=
  modify destroyCurrent ;;
  let datasets := makeDatasets data splitIndex in
  modify (newChart {| chartType := "line"; labels := labels;
                      datasets := datasets; title := title |}).

(** *** [removeStock] (lines 101-113) *)

Definition removeStock (symbol : string) : M unit :=
  modify (fun st =>
    setStocks (filter (fun s => s <> symbol) (stocks st)) st) ;;
  st ← get;
  setItem (Json.stringify (stocks st)) ;;
  match getElementById ("stock-" +:+ symbol) st with
  | Some card => removeElement (element card)
  | None => mret tt
  end ;;
  st ← get;
  if bool_decide (currentSymbol st = Some symbol)
  then modify (setChartSection (Some "none"))
  else mret tt.

(** *** [fetchHistory] (lines 144-155) *)

Definition fetchHistory (symbol period : string) : M unit :=
  fetch (API_URL +:+ "/history/" +:+ symbol +:+ "?period=" +:+ period)
        (AfterHistory symbol).

Definition fetchHistory_resume (symbol : string) (r : reply HistorySeries) : M unit :=
  tryCatch
    match r with
    | Rejected => throw FetchError
    | NotOk _ => mret tt
    | Ok data => drawChart (dates data) (prices data) (symbol +:+ " Price History") None
    end
    (fun _ => consoleError "Error fetching history:").

(** *** [showChart] (lines 115-128) and [showHistory] (lines 130-142) *)

Definition setActive (v : bool) (b : button) : button :=
  {| inChartControls := inChartControls b; active := v;
     disabled := disabled b; textContent := textContent b |}.

(** [querySelectorAll('.chart-controls button').forEach(btn =>
    btn.classList.remove('active'))] *)
Definition deactivateAll : M unit :=
  modify (fun st =>
    setButtons
      ((fun b => if inChartControls b then setActive false b else b) <$> buttons st) st).

(** The index of the button [querySelector('.chart-controls button')]
    returns. *)
Fixpoint firstControl (bs : list button) : option nat :=
  match bs with
  | [] => None
  | b :: r => if inChartControls b then Some 0 else S <$> firstControl r
  end.

Definition activate (i : nat) : M unit :=
  modify (fun st => setButtons (alter (setActive true) i (buttons st)) st).

Definition showChart (symbol : string) : M unit :=
  modify (setCurrentSymbol (Some symbol)) ;;
  modify (setChartSection (Some "block")) ;;
  modify (setChartTitle (symbol +:+ " - Stock History")) ;;
  deactivateAll ;;
  st ← get;
  match firstControl (buttons st) with
  | Some i => activate i
  | None => throw TypeError
  end ;;
  modify (setCurrentPeriod "1mo") ;;
  st ← get;
  fetchHistory symbol (currentPeriod st).

(** [target] is [event.target]. *)
Definition showHistory (period : string) (target : nat) : M unit :=
  st ← get;
  if falsy (currentSymbol st) then mret tt
  else
    modify (setCurrentPeriod period) ;;
    deactivateAll ;;
    activate target ;;
    st ← get;
    fetchHistory (text (currentSymbol st)) period.

(** *** [showPrediction] (lines 157-201) *)

Definition setBusy (v : bool) (t : string) (b : button) : button :=
  {| inChartControls := inChartControls b; active := active b;
     disabled := v; textContent := t |}.

(** The [finally] block, lines 198-199. *)
Definition release (btn : nat) (st : State) : State :=
  setButtons (alter (setBusy false "Show Prediction") btn (buttons st)) st.

Definition predictionFailed : alert :=
  Alert "Failed to get prediction. Make sure the backend is running.".

Definition showPrediction (target : nat) : M unit :=
  st ← get;
  if falsy (currentSymbol st) then mret tt
  else
    let btn := target in
    modify (fun st =>
      setButtons (alter (setBusy true "Loading prediction...") btn (buttons st)) st) ;;
    fetch (API_URL +:+ "/predict/" +:+ text (currentSymbol st) +:+ "?days=7")
          (AfterPredict btn).

(** From line 166 to the second [await], or to the end. *)
Definition showPrediction_resume (btn : nat) (r : reply Prediction) : M unit :=
  match r with
  | Ok data =>
      st ← get;
      fetch (API_URL +:+ "/history/" +:+ text (currentSymbol st)
             +:+ "?period=" +:+ currentPeriod st)
            (AfterPredictHistory btn data)
  | _ =>
      tryFinally
        (tryCatch
           match r with
           | NotOk error => showAlert (Alert ("Error: " +:+ error))
           | _ => throw FetchError
           end
           (fun _ => showAlert predictionFailed))
        (release btn)
  end.

(** Lines 174-182: the arguments of [drawChart]. *)
Definition allDates (histData : HistorySeries) (data : Prediction) : list string :=
  dates histData ++ dates (predictions data).
Definition allPrices (histData : HistorySeries) (data : Prediction) : list Q :=
  prices histData ++ prices (predictions data).
Definition splitIndex (histData : HistorySeries) : nat :=
  length (dates histData).

Definition sign (x : Q) : string := if Qle_bool 0 x then "+" else "".
Definition signClass (x : Q) : string :=
  if Qle_bool 0 x then "positive" else "negative".

(** From line 171 to the end.  The status of the history response is not
    tested: on a response that is not ok, [histData.dates] is [undefined]
    and the spread throws. *)
Definition showPrediction_resume2 (btn : nat) (data : Prediction)
    (r : reply HistorySeries) : M unit :=
  tryFinally
    (tryCatch
       match r with
       | Rejected => throw FetchError
       | NotOk _ => throw TypeError
       | Ok histData =>
           st ← get;
           drawChart (allDates histData data) (allPrices histData data)
             (text (currentSymbol st) +:+ " - History + 7-Day Prediction")
             (Some (splitIndex histData)) ;;
           let final := prices (predictions data) in
           showAlert
             (PredictionAlert (text (currentSymbol st)) (current_price data)
                (at_ final (length final - 1))
                (sign (predicted_change data))
                (predicted_change data) (predicted_change_percent data))
       end
       (fun _ => showAlert predictionFailed))
    (release btn).

(** *** [displayStock] (lines 74-99) and [fetchStockData] (lines 43-72) *)

Definition displayStock (data : Quote) : M unit :=
  st ← get;
  match getElementById ("stock-" +:+ symbol data) st with
  | None => throw TypeError
  | Some card =>
      let changeClass := signClass (change data) in
      let changeSign := sign (change data) in
      onElement (element card) (fun c =>
        {| element := element c; elementId := elementId c;
           className := "stock-card";
           innerHTML := Shown data changeClass changeSign;
           onclick := Some (symbol data) |})
  end.

Definition createCard (cardId : string) : M nat := fun st =>
  let e := nextId st in
  Normal e
    (setStockCards
       (stockCards st ++
          [{| element := e; elementId := cardId; className := "stock-card loading";
              innerHTML := Loading; onclick := None |}])
       (setNextId (S e) st)).

Definition fetchStockData (clearInput : bool) (symbol : string) : M unit :=
  let cardId := "stock-" +:+ symbol in
  st ← get;
  card ← match getElementById cardId st with
         | Some c => mret (element c)
         | None => createCard cardId
         end;
  fetch (API_URL +:+ "/stock/" +:+ symbol) (AfterQuote symbol card clearInput).

Definition fetchStockData_resume (symbol : string) (card : nat) (clearInput : bool)
    (r : reply Quote) : M unit :=
  tryCatch
    match r with
    | Rejected => throw FetchError
    | Ok data => displayStock data
    | NotOk error =>
        onElement card (setInnerHTML (ErrorMessage error)) ;;
        setTimeout symbol 3000
    end
    (fun _ =>
       onElement card (setInnerHTML FetchFailed) ;;
       setTimeout symbol 3000) ;;
  if clearInput then modify (setStockSymbol "") else mret tt.

(** *** [addStock] (lines 22-41) and [handleEnter] (lines 16-20) *)

Definition addStock : M unit :=
  st ← get;
  let symbol := Js.toUpperCase (Js.trim (stockSymbol st)) in
  if Js.falsy symbol then showAlert (Alert "Please enter a stock symbol")
  else if Js.includes (stocks st) symbol then showAlert (Alert "Stock already added")
  else
    modify (setStocks (stocks st ++ [symbol])) ;;
    st ← get;
    setItem (Json.stringify (stocks st)) ;;
    fetchStockData true symbol.

Definition handleEnter (key : string) : M unit :=
  if bool_decide (key = "Enter") then addStock else mret tt.

(** *** The [DOMContentLoaded] listener (lines 8-14)

    [None] is returned on a persisted text that is JSON but not an array of
    strings: [stocks] would then hold a value that [State] has no place
    for. *)
Definition onDOMContentLoaded (st : State) : option (completion unit) :=
  match localStorage st with
  | None => Some (Normal tt st)
  | Some saved =>
      if Js.falsy saved then Some (Normal tt st)
      else
        match Json.parse saved with
        | None => Some (Throw SyntaxError st)
        | Some (Json.Array items) =>
            match Json.strings items with
            | Some l =>
                Some ((modify (setStocks l) ;;
                       st ← get;
                       forEach (stocks st) (fetchStockData false)) st)
            | None => None
            end
        | Some _ => None
        end
  end.

(** ** Executions *)

Inductive payload :=
| QuoteReply (r : reply Quote)
| HistoryReply (r : reply HistorySeries)
| PredictionReply (r : reply Prediction).

Inductive event :=
| DOMContentLoaded
| Input (value : string)                  (* the user edits [#stockSymbol] *)
| KeyPress (key : string)                 (* a key in [#stockSymbol]: [handleEnter] *)
| ClickAdd                                (* [addStock()] *)
| ClickCard (i : nat) (onRemove : bool)   (* a click in the [i]th card, on its Remove button or not *)
| ClickPeriod (period : string) (target : nat)   (* [showHistory(period)] *)
| ClickPrediction (target : nat)          (* [showPrediction()] *)
| Answer (i : nat) (p : payload)          (* the [i]th request in flight is answered *)
| TimerFired (i : nat).                      (* the [i]th timer fires *)

(** The continuation of a request on its answer; [None] when the answer is
    not one of the endpoint asked. *)
Definition resume (k : continuation) (p : payload) : option (M unit) :=
  match k, p with
  | AfterQuote symbol card clearInput, QuoteReply r =>
      Some (fetchStockData_resume symbol card clearInput r)
  | AfterHistory symbol, HistoryReply r =>
      Some (fetchHistory_resume symbol r)
  | AfterPredict btn, PredictionReply r =>
      Some (showPrediction_resume btn r)
  | AfterPredictHistory btn data, HistoryReply r =>
      Some (showPrediction_resume2 btn data r)
  | _, _ => None
  end.

(** A click on a button: the button exists and is not disabled. *)
Definition clickable (target : nat) (st : State) : bool :=
  match buttons st !! target with
  | Some b => negb (disabled b)
  | None => false
  end.

(** One event.  [None]: the event cannot happen in this state, or the
    listener of [DOMContentLoaded] leaves the model.  An exception no
    handler catches ends its handler and nothing more. *)
Definition step (st : State) (ev : event) : option State :=
  match ev with
  | DOMContentLoaded =>
      match onDOMContentLoaded st with
      | Some (Normal _ st') | Some (Throw _ st') => Some st'
      | None => None
      end
  | Input value => Some (setStockSymbol value st)
  | KeyPress key => Some (exec (handleEnter key) st)
  | ClickAdd => Some (exec addStock st)
  | ClickCard i onRemove =>
      match stockCards st !! i with
      | None => None
      | Some c =>
          if onRemove then
            match innerHTML c with
            | Shown data _ _ => Some (exec (removeStock (symbol data)) st)
            | _ => None
            end
          else
            match onclick c with
            | Some symbol => Some (exec (showChart symbol) st)
            | None => Some st
            end
      end
  | ClickPeriod period target =>
      if clickable target st then Some (exec (showHistory period target) st) else None
  | ClickPrediction target =>
      if clickable target st then Some (exec (showPrediction target) st) else None
  | Answer i p =>
      match inflight st !! i with
      | None => None
      | Some (_, k) =>
          match resume k p with
          | Some m => Some (exec m (setInflight (delete i (inflight st)) st))
          | None => None
          end
      end
  | TimerFired i =>
      match timers st !! i with
      | None => None
      | Some t => Some (exec (removeStock (removes t)) (setTimers (delete i (timers st)) st))
      end
  end.

Fixpoint run (st : State) (evs : list event) : option State :=
  match evs with
  | [] => Some st
  | ev :: r => match step st ev with Some st' => run st' r | None => None end
  end.

(** The state of a freshly loaded page: what [localStorage] holds and the
    buttons of the document are not the program's. *)
Definition initial (saved : option string) (bs : list button) : State :=
  {| stocks := []; currentChart := None; currentSymbol := None; currentPeriod := "1mo";
     localStorage := saved; stockSymbol := ""; stockCards := [];
     chartSection := None; chartTitle := ""; buttons := bs; charts := [];
     alerts := []; console := []; timers := []; inflight := []; nextId := 0 |}.

(** ** Invariants *)

(** [m] keeps [P], however it completes. *)
Definition preserves {A} (P : State -> Prop) (m : M A) : Prop :=
  forall st, P st ->
    match m st with
    | Normal _ st' => P st'
    | Throw _ st' => P st'
    end.

(** The charts alive are the current chart, if any. *)
Definition oneChart (st : State) : Prop :=
  match currentChart st with
  | None => charts st = []
  | Some h => exists cfg, charts st = [(h, cfg)]
  end.

(** No two cards of the document have the same [id]. *)
Definition uniqueIds (st : State) : Prop :=
  NoDup (elementId <$> stockCards st).


(** The state a completion leaves. *)
Definition final {A} (c : completion A) : State :=
  match c with
  | Normal _ st => st
  | Throw _ st => st
  end.

(** The persisted entry is a text that [JSON.parse] reads as the watchlist. *)
Definition persisted (st : State) : Prop :=
  exists text,
    localStorage st = Some text /\
    Json.parse text = Some (Json.Array (Json.Str <$> stocks st)).

(** The watchlist is empty and the persisted entry is still the one the page
    was opened with. *)
Definition untouched (saved : option string) (st : State) : Prop :=
  stocks st = [] /\ localStorage st = saved.

(** An entry from which the listener of [DOMContentLoaded] takes nothing:
    absent, empty, or not JSON. *)
Definition unloadable (saved : option string) : Prop :=
  saved = None \/ saved = Some "" \/
  exists text, saved = Some text /\ Json.parse text = None.

(** [m] writes neither the watchlist nor the persisted entry. *)
Definition keepsWatchlist {A} (m : M A) : Prop :=
  forall l e, preserves (fun st => stocks st = l /\ localStorage st = e) m.

(** The cards of the document are distinct elements, created before now. *)
Definition freshElements (st : State) : Prop :=
  NoDup (element <$> stockCards st) /\
  Forall (fun c => element c < nextId st) (stockCards st).

(** The button a continuation of [showPrediction] holds. *)
Definition heldButton (k : continuation) : option nat :=
  match k with
  | AfterPredict btn | AfterPredictHistory btn _ => Some btn
  | _ => None
  end.

(** The buttons whose prediction is awaited, one entry per request in
    flight. *)
Definition predictingButtons (st : State) : list nat :=
  omap (fun request => heldButton request.2) (inflight st).

(** The button [btn] is as line 161-162 leaves it. *)
Definition busyAt (st : State) (btn : nat) : Prop :=
  exists b, buttons st !! btn = Some b /\
    disabled b = true /\ textContent b = "Loading prediction...".

Definition busyWhilePredicting (st : State) : Prop :=
  NoDup (predictingButtons st) /\
  forall btn, btn ∈ predictingButtons st -> busyAt st btn.

(** The predictions awaited are [l], and the buttons of [B] are busy. *)
Definition keepsBusy (l : list nat) (B : nat -> Prop) (st : State) : Prop :=
  predictingButtons st = l /\ forall btn, B btn -> busyAt st btn.

(** A request in flight is well formed: its URL is the one of the endpoint
    its continuation belongs to, for the symbol the continuation names; and
    the card a continuation of [fetchStockData] holds was created before
    now and, if it is in the document, has the id of the symbol. *)
Definition requestOK (st : State) (request : string * continuation) : Prop :=
  match request.2 with
  | AfterQuote s card _ =>
      request.1 = API_URL +:+ "/stock/" +:+ s /\
      card < nextId st /\
      forall c, c ∈ stockCards st -> element c = card -> elementId c = "stock-" +:+ s
  | AfterHistory s =>
      exists period, request.1 = API_URL +:+ "/history/" +:+ s +:+ "?period=" +:+ period
  | AfterPredict _ =>
      exists s, request.1 = API_URL +:+ "/predict/" +:+ s +:+ "?days=7"
  | AfterPredictHistory _ _ =>
      exists s period,
        request.1 = API_URL +:+ "/history/" +:+ s +:+ "?period=" +:+ period
  end.

Definition requestsOK (st : State) : Prop :=
  freshElements st /\ Forall (requestOK st) (inflight st).

(** Every timer pending is one of 3000 ms. *)
Definition timersOK (st : State) : Prop :=
  Forall (fun t => delay t = 3000) (timers st).



(** The card [fetchStockData] creates. *)
Definition loadingCard (e : nat) (s : string) : card :=
  {| element := e; elementId := "stock-" +:+ s; className := "stock-card loading";
     innerHTML := Loading; onclick := None |}.

(** ** Sample data, for the concrete runs below *)

Module Sample.

Definition history : HistorySeries :=
  {| dates := ["d1"; "d2"]; prices := [10 # 1; 12 # 1] |}.



Definition quote (s : string) : Quote :=
  {| symbol := s; name := "Apple Inc."; price := 12 # 1; change := 0 # 1;
     changePercent := 0 # 1 |}.

Definition periodButton : button :=
  {| inChartControls := true; active := true; disabled := false;
     textContent := "1M" |}.

Definition predictButton : button :=
  {| inChartControls := true; active := false; disabled := false;
     textContent := "Show Prediction" |}.

Definition page : State := initial None [periodButton; predictButton].


(** The state when the chart of [AAPL] has been opened and its history is
    awaited. *)
Definition opening : State :=
  Eval vm_compute in
    default page
      (run page [ Input "aapl  "; ClickAdd;
                  Answer 0 (QuoteReply (Ok (quote "AAPL"))); ClickCard 0 false ]).

(** Then the history has arrived and the chart is drawn. *)
Definition charted : State :=
  Eval vm_compute in
    default page (run opening [ Answer 0 (HistoryReply (Ok history)) ]).

(** Then the user has asked for the prediction. *)
Definition predicting : State :=
  Eval vm_compute in default page (run charted [ ClickPrediction 1 ]).

(** The user has typed [zzzz] and asked to add it: its quote is awaited. *)
Definition adding : State :=
  Eval vm_compute in default page (run page [ Input "zzzz"; ClickAdd ]).

(** Then the request for the quote of [ZZZZ] was rejected. *)
Definition failed : State :=
  Eval vm_compute in default page (run adding [ Answer 0 (QuoteReply Rejected) ]).

End Sample.

(** * Properties *)

(** ** JSON: reading back what was written *)

Module JsonFacts.
Import Json.

Lemma append_assoc (a b c : string) : (a +:+ b) +:+ c = a +:+ (b +:+ c).
Proof. induction a as [|x a IH]; simpl; [done | by f_equal]. Qed.

Lemma length_append (a b : string) :
  String.length (a +:+ b) = String.length a + String.length b.
Proof. induction a as [|x a IH]; simpl; [done | by f_equal]. Qed.

Lemma stringBody_escape (c : ascii) (r rest t : string) :
  stringBody r = Some (t, rest) ->
  stringBody (escape c +:+ r) = Some (String c t, rest).
Proof.
  intros H.
  destruct c as [[] [] [] [] [] [] [] []];
    cbv [escape Js.code nat_of_ascii N_of_ascii N_of_digits Nat.eqb Nat.ltb Nat.leb]; 
    simpl; rewrite ?H; reflexivity.
Qed.

Lemma stringBody_escapeAll (s rest : string) :
  stringBody (escapeAll s +:+ String dquote rest) = Some (s, rest).
Proof.
  induction s as [|c s IH]; [reflexivity|].
  cbn [escapeAll]. rewrite append_assoc. by apply stringBody_escape.
Qed.

Lemma parseValue_quote (fuel : nat) (s rest : string) :
  parseValue (S fuel) (quote s +:+ rest) = Some (Str s, rest).
Proof.
  unfold quote. cbn [String.append]. rewrite append_assoc.
  cbn [String.append]. cbn [parseValue skipWs]. 
  change (isWs dquote) with false. cbv iota.
  change (Js.code dquote) with 34. cbn [Nat.eqb]. cbv iota.
  by rewrite stringBody_escapeAll.
Qed.

Lemma elements_joinQuoted (l : list string) (s rest : string) (fuel : nat) :
  length l + 2 <= fuel ->
  elements fuel (joinQuoted (s :: l) +:+ String "]" rest)
  = Some (Str <$> (s :: l), rest).
Proof.
  revert s fuel. induction l as [|s' l IH]; intros s fuel Hfuel.
  - destruct fuel as [|fuel]; [simpl in Hfuel; lia|].
    cbn [joinQuoted elements].
    destruct fuel as [|fuel]; [simpl in Hfuel; lia|].
    rewrite parseValue_quote. reflexivity.
  - destruct fuel as [|fuel]; [simpl in Hfuel; lia|].
    change (joinQuoted (s :: s' :: l))
      with (quote s +:+ "," +:+ joinQuoted (s' :: l)).
    rewrite !append_assoc. cbn [elements].
    destruct fuel as [|fuel]; [simpl in Hfuel; lia|].
    rewrite parseValue_quote.
    cbn [String.append skipWs]. change (isWs ",") with false. cbv iota.
    change (Js.code ",") with 44. cbn [Nat.eqb]. cbv iota.
    rewrite IH by (simpl in Hfuel |- *; lia). reflexivity.
Qed.

Lemma length_joinQuoted (l : list string) :
  length l <= String.length (joinQuoted l).
Proof.
  induction l as [|s [|s' l] IH]; [simpl; lia| |].
  - unfold joinQuoted, quote. simpl. lia.
  - change (joinQuoted (s :: s' :: l))
      with (quote s +:+ "," +:+ joinQuoted (s' :: l)).
    rewrite !length_append. unfold quote at 1. simpl in IH |- *. lia.
Qed.

Lemma strings_Str (l : list string) : strings (Str <$> l) = Some l.
Proof.
  induction l as [|s l IH]; [done|].
  change (Str <$> s :: l) with (Str s :: (Str <$> l)).
  cbn [strings]. by rewrite IH.
Qed.

(** What [JSON.stringify] writes for an array of strings, [JSON.parse]
    reads back as that array. *)
Lemma parse_stringify (l : list string) :
  parse (stringify l) = Some (Array (Str <$> l)).
Proof.
  unfold parse, stringify.
  destruct l as [|s l]; [reflexivity|].
  set (fuel := 2 * _ + 2).
  assert (Hfuel : length l + 3 <= fuel).
  { subst fuel. rewrite !length_append.
    pose proof (length_joinQuoted (s :: l)) as H. simpl in H |- *. lia. }
  destruct fuel as [|fuel]; [lia|].
  cbn [String.append parseValue skipWs]. change (isWs "[") with false. cbv iota.
  change (Js.code "[") with 91. cbn [Nat.eqb]. cbv iota.
  assert (Hq : exists r, joinQuoted (s :: l) +:+ "]" = String dquote r).
  { destruct l; cbn [joinQuoted]; unfold quote; cbn [String.append]; eauto. }
  destruct Hq as [r Hq]. rewrite Hq. cbn [skipWs].
  change (isWs dquote) with false. cbv iota.
  change (Js.code dquote) with 34. cbn [Nat.eqb]. cbv iota.
  rewrite <- Hq.
  rewrite (elements_joinQuoted l s "" fuel) by lia. reflexivity.
Qed.

Lemma stringify_not_empty (l : list string) : Js.falsy (stringify l) = false.
Proof. reflexivity. Qed.

(** The fuel [parse] gives is enough for nested values. *)
Example parse_nested :
  parse " [[[[1]]], [true, null], -0.5e3] " =
  Some (Array [Array [Array [Array [Number "1"]]];
               Array [Bool true; Null]; Number "-0.5e3"]).
Proof. reflexivity. Qed.

Example parse_rejects :
  parse "[01]" = None /\ parse "[1,]" = None /\ parse "[" = None /\
  parse "" = None /\ parse "AAPL" = None.
Proof. repeat split. Qed.

End JsonFacts.

(** ** Tactics and frame lemmas *)

Ltac monad :=
  cbv [exec mbind M_bind mret M_ret modify get throw tryCatch tryFinally
       showAlert consoleError setTimeout fetch setItem onElement removeElement].

Section drawChart.

Variables (lbls : list string) (d : list Q) (t : string).

Lemma drawChart_exec split st :
  exec (drawChart lbls d t split) st =
  newChart {| chartType := "line"; labels := lbls;
              datasets := makeDatasets d split; title := t |}
    (destroyCurrent st).
Proof. reflexivity. Qed.

Lemma drawChart_normal split st :
  drawChart lbls d t split st = Normal tt (exec (drawChart lbls d t split) st).
Proof. reflexivity. Qed.

Lemma nextId_destroyCurrent st : nextId (destroyCurrent st) = nextId st.
Proof. unfold destroyCurrent. by destruct (currentChart st). Qed.

End drawChart.

(** The entries of the "Prediction" dataset for a split at [S m]. *)
Lemma prediction_entries (d : list Q) (m : nat) :
  let p := replicate (S m - 1) null ++ [at_ d (S m - 1)] ++ (num <$> drop (S m) d) in
  (forall i, i < m -> p !! i = Some null) /\
  p !! m = Some (at_ d m) /\
  (forall i, S m <= i -> p !! i = num <$> d !! i).
Proof.
  replace (S m - 1) with m by lia. cbn zeta.
  split; [|split].
  - intros i Hi. rewrite lookup_app_l by (rewrite length_replicate; lia).
    by apply lookup_replicate_2.
  - rewrite lookup_app_r by (rewrite length_replicate; lia).
    rewrite length_replicate, Nat.sub_diag. reflexivity.
  - intros i Hi. rewrite lookup_app_r by (rewrite length_replicate; lia).
    rewrite length_replicate.
    rewrite lookup_app_r by (simpl; lia).
    rewrite list_lookup_fmap, lookup_drop. simpl. do 2 f_equal. lia.
Qed.


Lemma at_last (d : list Q) (m : nat) :
  S m <= length d -> Some (at_ d m) = last (num <$> take (S m) d).
Proof.
  intros H. unfold at_.
  destruct (lookup_lt_is_Some_2 d m) as [x Hx]; [lia|]. rewrite Hx.
  rewrite (take_S_r _ _ _ Hx), fmap_app. simpl. by rewrite last_snoc.
Qed.

(** ** The chart renderer *)

(** C2, as the code has it: [drawChart] makes the chart it constructs the
    current one, with the labels and the title it is given.  When
    [splitIndex] is absent or [0] the chart has the one dataset "Price" with
    the whole series.  When [splitIndex] is [S m] it has two: "Historical"
    with the entries below [S m], and the dashed "Prediction" with [null]
    below [m], [data[m]] at [m] (the last entry of "Historical" when the
    series has more than [m] entries) and the entries of the series from
    [S m] on. *)
Theorem drawChart_datasets (st : State) (lbls : list string) (d : list Q)
    (t : string) (split : option nat) :
  let st' := exec (drawChart lbls d t split) st in
  exists cfg,
    currentChart st' = Some (nextId st) /\
    charts st' = charts (destroyCurrent st) ++ [(nextId st, cfg)] /\
    labels cfg = lbls /\ title cfg = t /\
    match split with
    | None | Some 0 =>
        exists one, datasets cfg = [one] /\
          label one = "Price" /\ data one = num <$> d /\ borderDash one = None
    | Some (S m) =>
        exists hist pred, datasets cfg = [hist; pred] /\
          label hist = "Historical" /\ data hist = num <$> take (S m) d /\
          borderDash hist = None /\
          label pred = "Prediction" /\ borderDash pred = Some [5; 5] /\
          (forall i, i < m -> data pred !! i = Some null) /\
          data pred !! m = Some (at_ d m) /\
          (S m <= length d -> data pred !! m = last (data hist)) /\
          (forall i, S m <= i -> data pred !! i = num <$> d !! i)
    end.
Proof.
  intros st'. subst st'. rewrite drawChart_exec.
  eexists. split; [|split; [|split; [|split]]].
  - unfold newChart. simpl. by rewrite nextId_destroyCurrent.
  - unfold newChart. simpl. by rewrite nextId_destroyCurrent.
  - reflexivity.
  - reflexivity.
  - destruct split as [[|m]|]; simpl datasets.
    + eexists. repeat split.
    + destruct (prediction_entries d m) as (Hnull & Hjoin & Hrest).
      do 2 eexists. split; [reflexivity|].
      repeat match goal with |- _ /\ _ => split end; try reflexivity.
      * exact Hnull.
      * exact Hjoin.
      * intros Hm. cbn [data dashed solid]. rewrite <- at_last by done. exact Hjoin.
      * exact Hrest.
    + eexists. repeat split.
Qed.

Lemma drawChart_datasets_witness :
  exists cfg,
    charts (exec (drawChart ["d1"; "d2"; "e1"] [10 # 1; 12 # 1; 13 # 1] "t" (Some 2))
              Sample.page) = [(0, cfg)] /\
    data <$> datasets cfg = [[num (10 # 1); num (12 # 1)];
                             [null; num (12 # 1); num (13 # 1)]].
Proof.
  destruct (drawChart_datasets Sample.page ["d1"; "d2"; "e1"]
              [10 # 1; 12 # 1; 13 # 1] "t" (Some 2)) as (cfg & _ & Hc & _).
  exists cfg. split; [exact Hc|].
  vm_compute in Hc. injection Hc as <-. reflexivity.
Defined.

(** C2 fails on a [splitIndex] of [0]: the test [if (splitIndex)] sends it
    to the branch of the absent [splitIndex], and the chart has the single
    dataset "Price".  And on a [splitIndex] beyond the series, here [3] for
    one price, the entry at [splitIndex - 1] is [undefined], not the last
    historical value. *)
Lemma drawChart_split_zero :
  let st' := exec (drawChart ["e1"] [13 # 1] "t" (Some 0)) Sample.page in
  let st'' := exec (drawChart ["d1"] [10 # 1] "t" (Some 3)) Sample.page in
  (datasets <$> (snd <$> charts st')) = [[solid "Price" [num (13 # 1)]]] /\
  ~ (exists cfg hist pred, cfg ∈ snd <$> charts st' /\ datasets cfg = [hist; pred]) /\
  (datasets <$> (snd <$> charts st'')) =
    [[solid "Historical" [num (10 # 1)]; dashed "Prediction" [null; null; undefined]]].
Proof.
  split; [reflexivity|]. split; [|reflexivity].
  intros (cfg & hist & pred & Hin & Hd). vm_compute in Hin.
  apply list_elem_of_singleton in Hin. subst cfg. discriminate Hd.
Qed.

(** ** The prediction composer *)




(** ** Guards on the charted symbol *)

(** C10: while no symbol is charted, [showHistory] and [showPrediction]
    return at their first line with the state as it was: no request is put
    in flight, and the period, the chart and the buttons are untouched.  So
    does a click that calls either. *)
Theorem no_symbol_no_effect (st : State) (period : string) (target : nat) :
  currentSymbol st = None ->
  showHistory period target st = Normal tt st /\
  showPrediction target st = Normal tt st /\
  (clickable target st = true ->
   step st (ClickPeriod period target) = Some st /\
   step st (ClickPrediction target) = Some st).
Proof.
  intros Hnone.
  assert (Hh : showHistory period target st = Normal tt st)
    by (unfold showHistory; monad; by rewrite Hnone).
  assert (Hp : showPrediction target st = Normal tt st)
    by (unfold showPrediction; monad; by rewrite Hnone).
  repeat split; [exact Hh | exact Hp | |];
    cbn [step]; rewrite H; unfold exec; by rewrite ?Hh, ?Hp.
Qed.

Lemma no_symbol_no_effect_witness :
  step Sample.page (ClickPeriod "1y" 0) = Some Sample.page /\
  step Sample.page (ClickPrediction 1) = Some Sample.page.
Proof.
  destruct (no_symbol_no_effect Sample.page "1y" 0 eq_refl) as (_ & _ & H0).
  destruct (no_symbol_no_effect Sample.page "1y" 1 eq_refl) as (_ & _ & H1).
  split; [apply H0 | apply H1]; reflexivity.
Defined.

(** ** The history fetcher *)

(** C9: when the answer to a request of [fetchHistory] is a failure, the
    step only takes the request off the requests in flight and, for a
    rejected request, writes one line on the console.  The charts, the
    current chart and the alerts are as before. *)
Theorem fetchHistory_failure_silent (st : State) (i : nat) (url symbol : string)
    (r : reply HistorySeries) :
  inflight st !! i = Some (url, AfterHistory symbol) ->
  (forall data, r <> Ok data) ->
  let answered := setInflight (delete i (inflight st)) st in
  exists st',
    step st (Answer i (HistoryReply r)) = Some st' /\
    st' = match r with
          | Rejected => setConsole (console st ++ ["Error fetching history:"]) answered
          | _ => answered
          end /\
    charts st' = charts st /\ currentChart st' = currentChart st /\
    alerts st' = alerts st.
Proof.
  intros Hi Hfail answered. cbn [step]. rewrite Hi. cbn [resume].
  destruct r as [|error|data]; [| |by destruct (Hfail data)];
    eexists; (split; [reflexivity|]); repeat split.
Qed.

Lemma fetchHistory_failure_silent_witness :
  exists st',
    step Sample.opening (Answer 0 (HistoryReply (NotOk "No data found"))) = Some st' /\
    charts st' = charts Sample.opening /\ alerts st' = alerts Sample.opening /\
    console st' = console Sample.opening.
Proof.
  destruct (fetchHistory_failure_silent Sample.opening 0
              "http://localhost:5000/api/history/AAPL?period=1mo" "AAPL"
              (NotOk "No data found") eq_refl)
    as (st' & Hstep & Heq & Hcharts & _ & Halerts); [discriminate|].
  exists st'. split; [exact Hstep|]. split; [exact Hcharts|]. split; [exact Halerts|].
  rewrite Heq. reflexivity.
Defined.

(** ** The prediction control *)

Lemma buttons_showPrediction_resume2 btn fc r st :
  buttons (exec (showPrediction_resume2 btn fc r) st)
  = alter (setBusy false "Show Prediction") btn (buttons st).
Proof.
  unfold showPrediction_resume2, drawChart, release, newChart, destroyCurrent.
  destruct r as [|error|histData]; monad; [reflexivity..|].
  by destruct (currentChart st).
Qed.

(** C8: every way [showPrediction] ends runs its [finally] block.  The
    click disables the button and puts the request in flight.  An answer to
    it that is not a prediction releases the button: enabled, with the label
    "Show Prediction".  A prediction puts the history request in flight, and
    whatever answers that one (a history, a response that is not ok, a
    rejection) releases the button. *)
Theorem showPrediction_releases (st : State) (btn : nat) (b : button) :
  buttons st !! btn = Some b ->
  let released := setBusy false "Show Prediction" in
  (* the click *)
  (disabled b = false -> falsy (currentSymbol st) = false ->
   exists st' url,
     step st (ClickPrediction btn) = Some st' /\
     buttons st' !! btn = Some (setBusy true "Loading prediction..." b) /\
     inflight st' = inflight st ++ [(url, AfterPredict btn)]) /\
  (* the answer to the prediction request *)
  (forall i url r, inflight st !! i = Some (url, AfterPredict btn) ->
   exists st',
     step st (Answer i (PredictionReply r)) = Some st' /\
     match r with
     | Ok data =>
         exists url', inflight st' =
           delete i (inflight st) ++ [(url', AfterPredictHistory btn data)]
     | _ => buttons st' !! btn = Some (released b)
     end) /\
  (* the answer to the history request *)
  (forall i url data r, inflight st !! i = Some (url, AfterPredictHistory btn data) ->
   exists st',
     step st (Answer i (HistoryReply r)) = Some st' /\
     buttons st' !! btn = Some (released b) /\
     disabled (released b) = false /\
     textContent (released b) = "Show Prediction").
Proof.
  intros Hb released. split; [|split].
  - intros Hd Hsym. cbn [step]. unfold clickable. rewrite Hb, Hd. cbn [negb].
    unfold showPrediction. monad. rewrite Hsym.
    do 2 eexists. split; [reflexivity|]. split; [|reflexivity].
    cbn [buttons setInflight setButtons].
    rewrite list_lookup_alter_eq, Hb. reflexivity.
  - intros i url r Hi. cbn [step]. rewrite Hi. cbn [resume].
    destruct r as [|error|data]; eexists; (split; [reflexivity|]).
    + unfold showPrediction_resume, release. monad. cbn [buttons setAlerts setButtons setInflight].
      rewrite list_lookup_alter_eq, Hb. reflexivity.
    + unfold showPrediction_resume, release. monad. cbn [buttons setAlerts setButtons setInflight].
      rewrite list_lookup_alter_eq, Hb. reflexivity.
    + eexists. reflexivity.
  - intros i url data r Hi. cbn [step]. rewrite Hi. cbn [resume].
    eexists. split; [reflexivity|]. split; [|split; reflexivity].
    rewrite buttons_showPrediction_resume2. cbn [buttons setInflight].
    by rewrite list_lookup_alter_eq, Hb.
Qed.

Lemma showPrediction_releases_witness :
  exists st',
    step Sample.predicting (Answer 0 (PredictionReply Rejected)) = Some st' /\
    buttons st' !! 1 = Some Sample.predictButton.
Proof.
  destruct (showPrediction_releases Sample.predicting 1
              (setBusy true "Loading prediction..." Sample.predictButton) eq_refl)
    as (_ & Hanswer & _).
  destruct (Hanswer 0 "http://localhost:5000/api/predict/AAPL?days=7" Rejected eq_refl)
    as (st' & Hstep & Hb).
  exists st'. split; [exact Hstep | exact Hb].
Defined.

(** ** The watchlist *)


Lemma falsy_empty (s : string) : Js.falsy s = true <-> s = "".
Proof. destruct s; split; done. Qed.

Lemma includes_elem_of (l : list string) (x : string) :
  Js.includes l x = true <-> x ∈ l.
Proof. unfold Js.includes. apply bool_decide_eq_true. Qed.

Lemma fetchStockData_frame (clearInput : bool) (symbol : string) (st : State) :
  exists st',
    fetchStockData clearInput symbol st = Normal tt st' /\
    stocks st' = stocks st /\ localStorage st' = localStorage st /\
    alerts st' = alerts st /\ timers st' = timers st /\
    charts st' = charts st /\ currentChart st' = currentChart st /\
    buttons st' = buttons st /\
    (exists card, inflight st' = inflight st ++
       [(API_URL +:+ "/stock/" +:+ symbol, AfterQuote symbol card clearInput)]).
Proof.
  unfold fetchStockData, createCard. monad.
  destruct (getElementById _ st); eexists; (split; [reflexivity|]);
    repeat split; eexists; reflexivity.
Qed.





(** ** Invariants of the executions *)

Section preserves.

Context (P : State -> Prop).

Lemma preserves_ret {A} (a : A) : preserves P (mret a).
Proof. intros st H. exact H. Qed.

Lemma preserves_get : preserves P get.
Proof. intros st H. exact H. Qed.

Lemma preserves_throw {A} (e : exn) : preserves P (@throw A e).
Proof. intros st H. exact H. Qed.

Lemma preserves_modify (f : State -> State) :
  (forall st, P st -> P (f st)) -> preserves P (modify f).
Proof. intros Hf st H. by apply Hf. Qed.

Lemma preserves_bind {A B} (m : M A) (f : A -> M B) :
  preserves P m -> (forall a, preserves P (f a)) -> preserves P (m ≫= f).
Proof.
  intros Hm Hf st H. specialize (Hm st H).
  unfold mbind, M_bind. destruct (m st) as [a st'|e st']; [|exact Hm].
  by apply Hf.
Qed.

Lemma preserves_tryCatch {A} (body : M A) (handler : exn -> M A) :
  preserves P body -> (forall e, preserves P (handler e)) ->
  preserves P (tryCatch body handler).
Proof.
  intros Hm Hh st H. specialize (Hm st H).
  unfold tryCatch. destruct (body st) as [a st'|e st']; [exact Hm|].
  by apply Hh.
Qed.

Lemma preserves_tryFinally {A} (body : M A) (final : State -> State) :
  preserves P body -> (forall st, P st -> P (final st)) ->
  preserves P (tryFinally body final).
Proof.
  intros Hm Hf st H. specialize (Hm st H).
  unfold tryFinally. destruct (body st) as [a st'|e st']; by apply Hf.
Qed.

Lemma preserves_forEach {A} (l : list A) (f : A -> M unit) :
  (forall x, preserves P (f x)) -> preserves P (forEach l f).
Proof.
  intros Hf. induction l as [|x l IH]; [apply preserves_ret|].
  cbn [forEach]. apply preserves_bind; [apply Hf | intros _; exact IH].
Qed.

Lemma preserves_exec {A} (m : M A) (st : State) :
  preserves P m -> P st -> P (exec m st).
Proof. intros Hm H. specialize (Hm st H). unfold exec. by destruct (m st). Qed.

End preserves.

(** Decompose a handler along its monadic structure; [frame] closes the
    goals on the writes. *)
Ltac preserve frame :=
  repeat
    match goal with
    | |- preserves _ (mret _) => apply preserves_ret
    | |- preserves _ get => apply preserves_get
    | |- preserves _ (throw _) => apply preserves_throw
    | |- preserves _ (mbind _ _) => apply preserves_bind; [|intros ?]
    | |- preserves _ (tryCatch _ _) => apply preserves_tryCatch; [|intros ?]
    | |- preserves _ (tryFinally _ _) =>
        apply preserves_tryFinally; [|intros ? ?; frame]
    | |- preserves _ (forEach _ _) => apply preserves_forEach; intros ?
    | |- preserves _ (modify _) => apply preserves_modify; intros ? ?; frame
    | |- preserves _ (match ?x with _ => _ end) => destruct x
    end.

(** *** At most one chart *)

Ltac oneChart_frame :=
  idtac; match goal with H : oneChart _ |- oneChart _ => exact H end.

Lemma oneChart_destroyCurrent (st : State) :
  oneChart st -> charts (destroyCurrent st) = [].
Proof.
  unfold oneChart, destroyCurrent. destruct (currentChart st) as [h|]; [|done].
  intros [cfg Hc]. cbn [charts setCharts]. rewrite Hc.
  rewrite filter_cons_False by (cbn; tauto). reflexivity.
Qed.

Lemma oneChart_drawChart lbls d t split : preserves oneChart (drawChart lbls d t split).
Proof.
  intros st H. rewrite drawChart_normal, drawChart_exec.
  unfold oneChart, newChart. cbn [currentChart charts setCurrentChart setCharts setNextId].
  rewrite (oneChart_destroyCurrent st H). eexists. reflexivity.
Qed.

Lemma oneChart_fetchStockData b s : preserves oneChart (fetchStockData b s).
Proof.
  unfold fetchStockData, fetch. preserve oneChart_frame.
  intros st H. exact H.
Qed.

Lemma oneChart_removeStock s : preserves oneChart (removeStock s).
Proof.
  unfold removeStock, setItem, removeElement. preserve oneChart_frame.
Qed.

Lemma oneChart_addStock : preserves oneChart addStock.
Proof.
  unfold addStock, showAlert, setItem. preserve oneChart_frame.
  apply oneChart_fetchStockData.
Qed.

Lemma oneChart_showChart s : preserves oneChart (showChart s).
Proof.
  unfold showChart, deactivateAll, activate, fetchHistory, fetch.
  preserve oneChart_frame.
Qed.

Lemma oneChart_showHistory period target : preserves oneChart (showHistory period target).
Proof.
  unfold showHistory, deactivateAll, activate, fetchHistory, fetch.
  preserve oneChart_frame.
Qed.

Lemma oneChart_showPrediction target : preserves oneChart (showPrediction target).
Proof. unfold showPrediction, fetch. preserve oneChart_frame. Qed.

Lemma oneChart_resume k p m : resume k p = Some m -> preserves oneChart m.
Proof.
  destruct k, p; cbn [resume]; intros [= <-].
  - unfold fetchStockData_resume, displayStock, onElement, setTimeout.
    preserve oneChart_frame.
  - unfold fetchHistory_resume, consoleError. preserve oneChart_frame.
    apply oneChart_drawChart.
  - unfold showPrediction_resume, showAlert, fetch, release.
    preserve oneChart_frame.
  - unfold showPrediction_resume2, showAlert, release. preserve oneChart_frame.
    apply oneChart_drawChart.
Qed.

Lemma oneChart_step st ev st' : oneChart st -> step st ev = Some st' -> oneChart st'.
Proof.
  intros H Hstep. destruct ev; cbn [step] in Hstep.
  - unfold onDOMContentLoaded in Hstep.
    destruct (localStorage st) as [saved|]; [|by injection Hstep as <-].
    destruct (Js.falsy saved); [by injection Hstep as <-|].
    destruct (Json.parse saved) as [[]|]; try discriminate;
      [|by injection Hstep as <-].
    destruct (Json.strings items) as [l|]; [|discriminate].
    assert (Hp : preserves oneChart
              (modify (setStocks l) ;; st ← get; forEach (stocks st) (fetchStockData false))).
    { preserve oneChart_frame. apply oneChart_fetchStockData. }
    specialize (Hp st H).
    match type of Hp with match ?x with _ => _ end => destruct x end;
      by injection Hstep as <-.
  - by injection Hstep as <-.
  - injection Hstep as <-. apply preserves_exec; [|exact H].
    unfold handleEnter. preserve oneChart_frame; apply oneChart_addStock.
  - injection Hstep as <-. by apply preserves_exec; [apply oneChart_addStock|].
  - destruct (stockCards st !! i) as [c|]; [|discriminate].
    destruct onRemove.
    + destruct (innerHTML c); try discriminate. injection Hstep as <-.
      by apply preserves_exec; [apply oneChart_removeStock|].
    + destruct (onclick c); injection Hstep as <-; [|exact H].
      by apply preserves_exec; [apply oneChart_showChart|].
  - destruct (clickable target st); [|discriminate]. injection Hstep as <-.
    by apply preserves_exec; [apply oneChart_showHistory|].
  - destruct (clickable target st); [|discriminate]. injection Hstep as <-.
    by apply preserves_exec; [apply oneChart_showPrediction|].
  - destruct (inflight st !! i) as [[url k]|]; [|discriminate].
    destruct (resume k p) as [m|] eqn:Hm; [|discriminate]. injection Hstep as <-.
    apply preserves_exec; [by eapply oneChart_resume | exact H].
  - destruct (timers st !! i) as [t|]; [|discriminate]. injection Hstep as <-.
    apply preserves_exec; [apply oneChart_removeStock | exact H].
Qed.

Lemma run_invariant (P : State -> Prop) :
  (forall st ev st', P st -> step st ev = Some st' -> P st') ->
  forall evs st st', P st -> run st evs = Some st' -> P st'.
Proof.
  intros Hstep evs. induction evs as [|ev evs IH]; intros st st' H Hrun.
  - by injection Hrun as <-.
  - cbn [run] in Hrun. destruct (step st ev) as [st1|] eqn:E; [|discriminate].
    eapply IH; [|exact Hrun]. by eapply Hstep.
Qed.

(** *** Cards have distinct ids *)

Lemma NoDup_fmap_inj {A B} (f : A -> B) (l : list A) (x y : A) :
  NoDup (f <$> l) -> x ∈ l -> y ∈ l -> f x = f y -> x = y.
Proof.
  induction l as [|a l IH]; intros Hnd Hx Hy Hf; [by apply elem_of_nil in Hx|].
  rewrite fmap_cons in Hnd. apply NoDup_cons in Hnd as [Hnotin Hnd].
  apply elem_of_cons in Hx as [->|Hx]; apply elem_of_cons in Hy as [->|Hy].
  - reflexivity.
  - destruct Hnotin. rewrite Hf. by apply list_elem_of_fmap_2.
  - destruct Hnotin. rewrite <- Hf. by apply list_elem_of_fmap_2.
  - by apply IH.
Qed.

Lemma getElementById_Some (id : string) (st : State) (c : card) :
  getElementById id st = Some c -> c ∈ stockCards st /\ elementId c = id.
Proof.
  unfold getElementById. intros H. apply List.find_some in H as [Hin Hid].
  split; [by apply list_elem_of_In | by apply bool_decide_eq_true in Hid].
Qed.

Lemma getElementById_None (id : string) (st : State) :
  getElementById id st = None -> forall c, c ∈ stockCards st -> elementId c <> id.
Proof.
  unfold getElementById. intros H c Hc Hid.
  apply list_elem_of_In in Hc.
  pose proof (List.find_none _ _ H c Hc) as Hf. cbn in Hf.
  apply bool_decide_eq_false in Hf. contradiction.
Qed.

Ltac uniqueIds_frame :=
  idtac; match goal with H : uniqueIds _ |- uniqueIds _ => exact H end.

Lemma uniqueIds_onElement e f :
  (forall c, elementId (f c) = elementId c) -> preserves uniqueIds (onElement e f).
Proof.
  intros Hf st H. unfold onElement, modify, uniqueIds in *.
  cbn [stockCards setStockCards]. rewrite <- list_fmap_compose.
  erewrite list_fmap_ext; [exact H|].
  intros i c _. cbn. by destruct (bool_decide _).
Qed.

Lemma uniqueIds_removeElement e : preserves uniqueIds (removeElement e).
Proof.
  intros st H. unfold removeElement, modify, uniqueIds in *.
  cbn [stockCards setStockCards].
  eapply sublist_NoDup; [exact H|]. apply fmap_sublist, sublist_filter.
Qed.

Lemma uniqueIds_fetchStockData b s : preserves uniqueIds (fetchStockData b s).
Proof.
  intros st H. unfold fetchStockData, createCard. monad.
  destruct (getElementById _ st) eqn:E; [exact H|].
  unfold uniqueIds in *. cbn [stockCards setStockCards setInflight setNextId].
  rewrite fmap_app. apply NoDup_app. split; [exact H|].
  split; [|apply NoDup_singleton].
  intros id Hid Hid'. apply list_elem_of_singleton in Hid'. subst id.
  apply list_elem_of_fmap in Hid as (c & Hc & Hin).
  by apply (getElementById_None _ _ E c Hin).
Qed.

Lemma uniqueIds_removeStock s : preserves uniqueIds (removeStock s).
Proof.
  unfold removeStock, setItem. preserve uniqueIds_frame.
  apply uniqueIds_removeElement.
Qed.

Lemma uniqueIds_addStock : preserves uniqueIds addStock.
Proof.
  unfold addStock, showAlert, setItem. preserve uniqueIds_frame.
  apply uniqueIds_fetchStockData.
Qed.

Lemma uniqueIds_showChart s : preserves uniqueIds (showChart s).
Proof.
  unfold showChart, deactivateAll, activate, fetchHistory, fetch.
  preserve uniqueIds_frame.
Qed.

Lemma uniqueIds_showHistory period target : preserves uniqueIds (showHistory period target).
Proof.
  unfold showHistory, deactivateAll, activate, fetchHistory, fetch.
  preserve uniqueIds_frame.
Qed.

Lemma uniqueIds_showPrediction target : preserves uniqueIds (showPrediction target).
Proof. unfold showPrediction, fetch. preserve uniqueIds_frame. Qed.

Lemma uniqueIds_drawChart lbls d t split : preserves uniqueIds (drawChart lbls d t split).
Proof.
  intros st H. rewrite drawChart_normal, drawChart_exec.
  unfold newChart, destroyCurrent. by destruct (currentChart st).
Qed.

Lemma uniqueIds_resume k p m : resume k p = Some m -> preserves uniqueIds m.
Proof.
  destruct k, p; cbn [resume]; intros [= <-].
  - unfold fetchStockData_resume, displayStock, setTimeout.
    preserve uniqueIds_frame; by apply uniqueIds_onElement.
  - unfold fetchHistory_resume, consoleError. preserve uniqueIds_frame.
    apply uniqueIds_drawChart.
  - unfold showPrediction_resume, showAlert, fetch, release.
    preserve uniqueIds_frame.
  - unfold showPrediction_resume2, showAlert, release. preserve uniqueIds_frame.
    apply uniqueIds_drawChart.
Qed.

Lemma uniqueIds_step st ev st' : uniqueIds st -> step st ev = Some st' -> uniqueIds st'.
Proof.
  intros H Hstep. destruct ev; cbn [step] in Hstep.
  - unfold onDOMContentLoaded in Hstep.
    destruct (localStorage st) as [saved|]; [|by injection Hstep as <-].
    destruct (Js.falsy saved); [by injection Hstep as <-|].
    destruct (Json.parse saved) as [[]|]; try discriminate;
      [|by injection Hstep as <-].
    destruct (Json.strings items) as [l|]; [|discriminate].
    assert (Hp : preserves uniqueIds
              (modify (setStocks l) ;; st ← get; forEach (stocks st) (fetchStockData false))).
    { preserve uniqueIds_frame. apply uniqueIds_fetchStockData. }
    specialize (Hp st H).
    match type of Hp with match ?x with _ => _ end => destruct x end;
      by injection Hstep as <-.
  - by injection Hstep as <-.
  - injection Hstep as <-. apply preserves_exec; [|exact H].
    unfold handleEnter. preserve uniqueIds_frame; apply uniqueIds_addStock.
  - injection Hstep as <-. by apply preserves_exec; [apply uniqueIds_addStock|].
  - destruct (stockCards st !! i) as [c|]; [|discriminate].
    destruct onRemove.
    + destruct (innerHTML c); try discriminate. injection Hstep as <-.
      by apply preserves_exec; [apply uniqueIds_removeStock|].
    + destruct (onclick c); injection Hstep as <-; [|exact H].
      by apply preserves_exec; [apply uniqueIds_showChart|].
  - destruct (clickable target st); [|discriminate]. injection Hstep as <-.
    by apply preserves_exec; [apply uniqueIds_showHistory|].
  - destruct (clickable target st); [|discriminate]. injection Hstep as <-.
    by apply preserves_exec; [apply uniqueIds_showPrediction|].
  - destruct (inflight st !! i) as [[url k]|]; [|discriminate].
    destruct (resume k p) as [m|] eqn:Hm; [|discriminate]. injection Hstep as <-.
    apply preserves_exec; [by eapply uniqueIds_resume | exact H].
  - destruct (timers st !! i) as [t|]; [|discriminate]. injection Hstep as <-.
    apply preserves_exec; [apply uniqueIds_removeStock | exact H].
Qed.

Lemma uniqueIds_initial saved bs : uniqueIds (initial saved bs).
Proof. apply NoDup_nil_2. Qed.

Lemma oneChart_initial saved bs : oneChart (initial saved bs).
Proof. reflexivity. Qed.

(** ** One chart at a time *)

(** C4: in every state a run from the loaded page reaches, at most one
    chart is alive, and it is the current one.  [drawChart] from such a state
    has destroyed every chart when it constructs the new one, which is then
    the only chart alive. *)
Theorem one_live_chart (saved : option string) (bs : list button)
    (evs : list event) (st : State) :
  run (initial saved bs) evs = Some st ->
  length (charts st) <= 1 /\
  (forall h cfg, (h, cfg) ∈ charts st -> currentChart st = Some h) /\
  forall lbls d t split,
    charts (destroyCurrent st) = [] /\
    length (charts (exec (drawChart lbls d t split) st)) = 1.
Proof.
  intros Hrun.
  assert (H : oneChart st).
  { eapply (run_invariant oneChart); [apply oneChart_step | | exact Hrun].
    apply oneChart_initial. }
  split; [|split].
  - unfold oneChart in H. destruct (currentChart st).
    + destruct H as [cfg ->]. simpl. lia.
    + rewrite H. simpl. lia.
  - intros h cfg Hin. unfold oneChart in H. destruct (currentChart st).
    + destruct H as [cfg' Hc]. rewrite Hc in Hin.
      apply list_elem_of_singleton in Hin. by injection Hin as -> _.
    + rewrite H in Hin. by apply elem_of_nil in Hin.
  - intros lbls d t split. split; [by apply oneChart_destroyCurrent|].
    rewrite drawChart_exec. unfold newChart. cbn [charts setCurrentChart setCharts setNextId].
    by rewrite (oneChart_destroyCurrent st H).
Qed.

Lemma one_live_chart_witness :
  length (charts Sample.charted) <= 1 /\
  charts (destroyCurrent Sample.charted) = [].
Proof.
  destruct (one_live_chart None [Sample.periodButton; Sample.predictButton]
              [ Input "aapl  "; ClickAdd;
                Answer 0 (QuoteReply (Ok (Sample.quote "AAPL"))); ClickCard 0 false;
                Answer 0 (HistoryReply (Ok Sample.history)) ]
              Sample.charted) as (Hlen & _ & Hdraw); [vm_compute; reflexivity|].
  split; [exact Hlen|]. exact (proj1 (Hdraw [] [] "" None)).
Defined.

(** ** The quote fetcher *)

Lemma removeStock_spec (symbol : string) (st : State) :
  exists st',
    removeStock symbol st = Normal tt st' /\
    stocks st' = filter (fun s => s <> symbol) (stocks st) /\
    localStorage st' = Some (Json.stringify (stocks st')) /\
    stockCards st' =
      match getElementById ("stock-" +:+ symbol) st with
      | Some card => filter (fun c => element c <> element card) (stockCards st)
      | None => stockCards st
      end /\
    inflight st' = inflight st /\ timers st' = timers st.
Proof.
  unfold removeStock. monad.
  cbn [stocks currentSymbol setStocks setLocalStorage].
  change (getElementById ("stock-" +:+ symbol) (setStocks _ st))
    with (getElementById ("stock-" +:+ symbol) st).
  destruct (getElementById _ st);
    cbn [currentSymbol setStockCards setLocalStorage setStocks];
    case_bool_decide; eexists; (split; [reflexivity|]); repeat split.
Qed.





(** ** The persisted watchlist *)

Lemma forEach_fetchStockData (l : list string) (st : State) :
  exists st',
    forEach l (fetchStockData false) st = Normal tt st' /\
    stocks st' = stocks st /\ localStorage st' = localStorage st /\
    fst <$> inflight st' =
      (fst <$> inflight st) ++ ((fun s => API_URL +:+ "/stock/" +:+ s) <$> l).
Proof.
  revert st. induction l as [|s l IH]; intros st.
  - exists st. repeat split. by rewrite app_nil_r.
  - destruct (fetchStockData_frame false s st)
      as (st1 & H1 & Hs1 & Hl1 & _ & _ & _ & _ & _ & card & Hi1).
    destruct (IH st1) as (st2 & H2 & Hs2 & Hl2 & Hi2).
    exists st2. cbn [forEach]. unfold mbind, M_bind. rewrite H1, H2.
    split; [reflexivity|]. split; [congruence|]. split; [congruence|].
    rewrite Hi2, Hi1, fmap_app, <- app_assoc. reflexivity.
Qed.

(** C3, as the code has it: the listener of [DOMContentLoaded] leaves the
    state as it is when nothing, or the empty text, is persisted.  On the
    text [JSON.stringify] wrote for a watchlist it makes that watchlist the
    current one, in its order, and asks for the quote of each symbol.  On a
    text that is not JSON, [JSON.parse] throws a [SyntaxError] that nothing
    catches: the listener ends with it, the watchlist as it was. *)
Theorem load_watchlist (st : State) :
  (localStorage st = None \/ localStorage st = Some "" ->
   onDOMContentLoaded st = Some (Normal tt st)) /\
  (forall l, localStorage st = Some (Json.stringify l) ->
   exists st',
     onDOMContentLoaded st = Some (Normal tt st') /\
     stocks st' = l /\
     fst <$> inflight st' =
       (fst <$> inflight st) ++ ((fun s => API_URL +:+ "/stock/" +:+ s) <$> l)) /\
  (forall saved, localStorage st = Some saved -> saved <> "" ->
   Json.parse saved = None ->
   onDOMContentLoaded st = Some (Throw SyntaxError st)).
Proof.
  unfold onDOMContentLoaded. split; [|split].
  - intros [-> | ->]; reflexivity.
  - intros l ->. rewrite JsonFacts.stringify_not_empty, JsonFacts.parse_stringify,
      JsonFacts.strings_Str.
    destruct (forEach_fetchStockData l (setStocks l st)) as (st' & Hrun & Hs & _ & Hi).
    exists st'. monad. cbn [stocks setStocks]. rewrite Hrun.
    split; [reflexivity|]. split; [exact Hs | exact Hi].
  - intros saved -> Hne Hparse.
    destruct (Js.falsy saved) eqn:Hf; [by apply falsy_empty in Hf|].
    by rewrite Hparse.
Qed.

Lemma load_watchlist_witness :
  exists st',
    onDOMContentLoaded (initial (Some (Json.stringify ["AAPL"; "MSFT"])) [])
    = Some (Normal tt st') /\
    stocks st' = ["AAPL"; "MSFT"].
Proof.
  destruct (load_watchlist (initial (Some (Json.stringify ["AAPL"; "MSFT"])) []))
    as (_ & Hload & _).
  destruct (Hload ["AAPL"; "MSFT"] eq_refl) as (st' & Hrun & Hs & _).
  exists st'. split; [exact Hrun | exact Hs].
Defined.

(** C3 fails on a malformed entry: on the text [AAPL,MSFT], which is not
    JSON, the listener throws a [SyntaxError]. *)
Lemma load_malformed_throws :
  let st := initial (Some "AAPL,MSFT") [] in
  Json.parse "AAPL,MSFT" = None /\
  onDOMContentLoaded st = Some (Throw SyntaxError st).
Proof. split; reflexivity. Qed.

(** ** More on the executions *)

(** One step keeps a property that each handler keeps. *)
Lemma step_invariant (P : State -> Prop) :
  (forall st c, P st -> onDOMContentLoaded st = Some c -> P (final c)) ->
  (forall v st, P st -> P (setStockSymbol v st)) ->
  (forall st, P st -> P (exec addStock st)) ->
  (forall s st, P st -> P (exec (removeStock s) st)) ->
  (forall s st, P st -> P (exec (showChart s) st)) ->
  (forall p t st, clickable t st = true -> P st -> P (exec (showHistory p t) st)) ->
  (forall t st, clickable t st = true -> P st -> P (exec (showPrediction t) st)) ->
  (forall st i url k p m, inflight st !! i = Some (url, k) -> resume k p = Some m ->
     P st -> P (exec m (setInflight (delete i (inflight st)) st))) ->
  (forall st i, P st -> P (setTimers (delete i (timers st)) st)) ->
  forall st ev st', P st -> step st ev = Some st' -> P st'.
Proof.
  intros Hload Hinput Hadd Hremove Hchart Hhistory Hpredict Hanswer Htimer
    st ev st' H Hstep.
  destruct ev; cbn [step] in Hstep.
  - destruct (onDOMContentLoaded st) as [c|] eqn:E; [|discriminate].
    specialize (Hload st c H E). destruct c; by injection Hstep as <-.
  - injection Hstep as <-. by apply Hinput.
  - injection Hstep as <-. unfold handleEnter.
    destruct (bool_decide _); [by apply Hadd | exact H].
  - injection Hstep as <-. by apply Hadd.
  - destruct (stockCards st !! i) as [c|]; [|discriminate].
    destruct onRemove.
    + destruct (innerHTML c); try discriminate. injection Hstep as <-.
      by apply Hremove.
    + destruct (onclick c); injection Hstep as <-; [by apply Hchart | exact H].
  - destruct (clickable target st) eqn:E; [|discriminate]. injection Hstep as <-.
    by apply Hhistory.
  - destruct (clickable target st) eqn:E; [|discriminate]. injection Hstep as <-.
    by apply Hpredict.
  - destruct (inflight st !! i) as [[url k]|] eqn:E; [|discriminate].
    destruct (resume k p) as [m|] eqn:Hm; [|discriminate]. injection Hstep as <-.
    by eapply Hanswer.
  - destruct (timers st !! i) as [t|]; [|discriminate]. injection Hstep as <-.
    apply Hremove. by apply Htimer.
Qed.

(** *** Handlers that leave the watchlist alone *)

Ltac watchlist_frame :=
  idtac; match goal with H : _ /\ _ |- _ /\ _ => exact H end.

Lemma keepsWatchlist_drawChart lbls d t split : keepsWatchlist (drawChart lbls d t split).
Proof.
  intros l e st H. rewrite drawChart_normal, drawChart_exec.
  unfold newChart, destroyCurrent. by destruct (currentChart st).
Qed.

Lemma keepsWatchlist_fetchStockData b s : keepsWatchlist (fetchStockData b s).
Proof.
  intros l e. unfold fetchStockData, fetch. preserve watchlist_frame.
  intros st H. exact H.
Qed.

Lemma keepsWatchlist_showChart s : keepsWatchlist (showChart s).
Proof.
  intros l e. unfold showChart, deactivateAll, activate, fetchHistory, fetch.
  preserve watchlist_frame.
Qed.

Lemma keepsWatchlist_showHistory p t : keepsWatchlist (showHistory p t).
Proof.
  intros l e. unfold showHistory, deactivateAll, activate, fetchHistory, fetch.
  preserve watchlist_frame.
Qed.

Lemma keepsWatchlist_showPrediction t : keepsWatchlist (showPrediction t).
Proof. intros l e. unfold showPrediction, fetch. preserve watchlist_frame. Qed.

Lemma keepsWatchlist_resume k p m : resume k p = Some m -> keepsWatchlist m.
Proof.
  intros Hm l e. destruct k, p; cbn [resume] in Hm; injection Hm as <- || discriminate.
  - unfold fetchStockData_resume, displayStock, onElement, setTimeout.
    preserve watchlist_frame.
  - unfold fetchHistory_resume, consoleError. preserve watchlist_frame.
    apply keepsWatchlist_drawChart.
  - unfold showPrediction_resume, showAlert, fetch, release.
    preserve watchlist_frame.
  - unfold showPrediction_resume2, showAlert, release. preserve watchlist_frame.
    apply keepsWatchlist_drawChart.
Qed.

Lemma keepsWatchlist_exec {A} (m : M A) (st : State) :
  keepsWatchlist m ->
  stocks (exec m st) = stocks st /\ localStorage (exec m st) = localStorage st.
Proof. intros Hm. by apply (preserves_exec _ m st (Hm _ _)). Qed.

(** What [addStock] does to the watchlist and to the persisted entry. *)
Lemma addStock_watchlist (st : State) :
  let symbol := Js.toUpperCase (Js.trim (stockSymbol st)) in
  let st' := exec addStock st in
  (stocks st' = stocks st /\ localStorage st' = localStorage st) \/
  ((symbol ∉ stocks st) /\ stocks st' = stocks st ++ [symbol] /\
   localStorage st' = Some (Json.stringify (stocks st'))).
Proof.
  intros symbol st'. subst st'. unfold addStock, exec. monad. fold symbol.
  destruct (Js.falsy symbol); [by left|].
  destruct (Js.includes (stocks st) symbol) eqn:Hin; [by left|].
  right.
  match goal with
  | |- context [fetchStockData true symbol ?s] =>
      destruct (fetchStockData_frame true symbol s) as (st' & -> & Hs & Hl & _)
  end.
  rewrite Hs, Hl. split; [|by split].
  intros Hm. apply includes_elem_of in Hm. congruence.
Qed.

Lemma strings_inv (items : list Json.value) (l : list string) :
  Json.strings items = Some l -> items = Json.Str <$> l.
Proof.
  revert l. induction items as [|v items IH]; intros l H.
  - by injection H as <-.
  - destruct v; try discriminate. cbn [Json.strings] in H.
    destruct (Json.strings items) as [l'|]; [|discriminate].
    injection H as <-. by rewrite (IH l' eq_refl).
Qed.

(** What the listener of [DOMContentLoaded] does to the watchlist: nothing,
    or the watchlist becomes the one the entry decodes to. *)
Lemma onDOMContentLoaded_watchlist (st : State) (c : completion unit) :
  onDOMContentLoaded st = Some c ->
  localStorage (final c) = localStorage st /\
  ((stocks (final c) = stocks st /\
    (unloadable (localStorage st) \/
     exists text, localStorage st = Some text /\
       Json.parse text = Some (Json.Array (Json.Str <$> stocks st)))) \/
   (exists text,
      localStorage st = Some text /\
      Json.parse text = Some (Json.Array (Json.Str <$> stocks (final c))))).
Proof.
  unfold onDOMContentLoaded. intros H.
  destruct (localStorage st) as [saved|] eqn:Hs;
    [|injection H as <-; split; [done|]; left; split; [done|]; left; by left].
  destruct (Js.falsy saved) eqn:Hf.
  { injection H as <-. split; [done|]. left. split; [done|]. left. right. left.
    apply falsy_empty in Hf. by rewrite Hf. }
  destruct (Json.parse saved) as [v|] eqn:Hp.
  2:{ injection H as <-. split; [done|]. left. split; [done|]. left. right. right.
      by exists saved. }
  destruct v; try discriminate.
  destruct (Json.strings items) as [l|] eqn:Hl; [|discriminate].
  apply strings_inv in Hl. subst items.
  destruct (forEach_fetchStockData l (setStocks l st)) as (st' & Hrun & Hst & Hls & _).
  revert H. monad. cbn [stocks setStocks]. rewrite Hrun. intros [= <-].
  cbn [final]. rewrite Hls. split; [exact Hs|].
  right. exists saved. split; [done|]. by rewrite Hst.
Qed.

(** The ways a step changes the watchlist and the persisted entry: not at
    all; by loading the watchlist the entry decodes to; by appending a new
    symbol and persisting; by filtering a symbol out and persisting. *)
Lemma step_watchlist (st : State) (ev : event) (st' : State) :
  step st ev = Some st' ->
  (stocks st' = stocks st /\ localStorage st' = localStorage st) \/
  (localStorage st' = localStorage st /\
   exists text, localStorage st = Some text /\
     Json.parse text = Some (Json.Array (Json.Str <$> stocks st'))) \/
  (exists s, (s ∉ stocks st) /\ stocks st' = stocks st ++ [s] /\
     localStorage st' = Some (Json.stringify (stocks st'))) \/
  (exists s, stocks st' = filter (fun x => x <> s) (stocks st) /\
     localStorage st' = Some (Json.stringify (stocks st'))).
Proof.
  intros Hstep.
  assert (Hadd : forall s0, s0 = exec addStock st ->
    (stocks s0 = stocks st /\ localStorage s0 = localStorage st) \/
    (localStorage s0 = localStorage st /\
     exists text, localStorage st = Some text /\
       Json.parse text = Some (Json.Array (Json.Str <$> stocks s0))) \/
    (exists s, (s ∉ stocks st) /\ stocks s0 = stocks st ++ [s] /\
       localStorage s0 = Some (Json.stringify (stocks s0))) \/
    (exists s, stocks s0 = filter (fun x => x <> s) (stocks st) /\
       localStorage s0 = Some (Json.stringify (stocks s0)))).
  { intros s0 ->. destruct (addStock_watchlist st) as [H|H]; [by left|].
    right. right. left. eauto. }
  assert (Hremove : forall s st0, stocks st0 = stocks st ->
    exists s', stocks (exec (removeStock s) st0) = filter (fun x => x <> s') (stocks st) /\
      localStorage (exec (removeStock s) st0)
      = Some (Json.stringify (stocks (exec (removeStock s) st0)))).
  { intros s st0 Hs. destruct (removeStock_spec s st0) as (s1 & Hrm & H1 & H2 & _).
    unfold exec. rewrite Hrm. exists s. split; [by rewrite H1, Hs | exact H2]. }
  destruct ev; cbn [step] in Hstep.
  - destruct (onDOMContentLoaded st) as [c|] eqn:E; [|discriminate].
    assert (st' = final c) as -> by (destruct c; by injection Hstep as <-).
    destruct (onDOMContentLoaded_watchlist st c E) as [Hl [[Hs _]|H]];
      [by left | right; left; by split].
  - injection Hstep as <-. by left.
  - injection Hstep as <-. unfold handleEnter.
    destruct (bool_decide _); [by apply Hadd | by left].
  - injection Hstep as <-. by apply Hadd.
  - destruct (stockCards st !! i) as [c|]; [|discriminate].
    destruct onRemove.
    + destruct (innerHTML c); try discriminate. injection Hstep as <-.
      do 3 right. by apply Hremove.
    + destruct (onclick c); injection Hstep as <-; [|by left].
      left. apply keepsWatchlist_exec, keepsWatchlist_showChart.
  - destruct (clickable target st); [|discriminate]. injection Hstep as <-.
    left. apply keepsWatchlist_exec, keepsWatchlist_showHistory.
  - destruct (clickable target st); [|discriminate]. injection Hstep as <-.
    left. apply keepsWatchlist_exec, keepsWatchlist_showPrediction.
  - destruct (inflight st !! i) as [[url k]|]; [|discriminate].
    destruct (resume k p) as [m|] eqn:Hm; [|discriminate]. injection Hstep as <-.
    left. apply (keepsWatchlist_exec m (setInflight _ st)).
    by eapply keepsWatchlist_resume.
  - destruct (timers st !! i) as [t|]; [|discriminate]. injection Hstep as <-.
    do 3 right. by apply Hremove.
Qed.

Lemma persisted_stringify (st : State) :
  localStorage st = Some (Json.stringify (stocks st)) -> persisted st.
Proof.
  intros H. exists (Json.stringify (stocks st)). split; [exact H|].
  apply JsonFacts.parse_stringify.
Qed.

(** The persisted entry and the watchlist stay in step along a run. *)
Lemma step_synced (ok : option string -> Prop) (saved : option string)
    (st : State) (ev : event) (st' : State) :
  persisted st \/ (untouched saved st /\ ok saved) ->
  step st ev = Some st' ->
  persisted st' \/ (untouched saved st' /\ ok saved).
Proof.
  intros H Hstep.
  destruct (step_watchlist st ev st' Hstep)
    as [[Hs Hl]|[[Hl (text & Ht & Hp)]|[(s & _ & _ & Hl)|(s & _ & Hl)]]].
  - destruct H as [(text & Ht & Hp)|[[Hu Hv] Hok]].
    + left. exists text. by rewrite Hl, Hs.
    + right. split; [|exact Hok]. split; congruence.
  - left. exists text. split; [congruence | exact Hp].
  - left. by apply persisted_stringify.
  - left. by apply persisted_stringify.
Qed.

(** X1: along every run from the loaded page, either the watchlist is
    still empty and the persisted entry is the one the page was opened
    with, or the persisted entry is a text that [JSON.parse] reads as the
    current watchlist, symbol for symbol and in order. *)
Theorem watchlist_persisted (saved : option string) (bs : list button)
    (evs : list event) (st : State) :
  run (initial saved bs) evs = Some st ->
  persisted st \/ untouched saved st.
Proof.
  intros Hrun.
  assert (H : persisted st \/ (untouched saved st /\ True)).
  { eapply (run_invariant (fun st => persisted st \/ (untouched saved st /\ True)));
      [ intros ? ? ?; apply (step_synced (fun _ => True)) | | exact Hrun ].
    right. by split. }
  destruct H as [H|[H _]]; [by left | by right].
Qed.

Lemma watchlist_persisted_witness :
  persisted Sample.charted \/ untouched None Sample.charted.
Proof.
  apply (watchlist_persisted None [Sample.periodButton; Sample.predictButton]
           [ Input "aapl  "; ClickAdd;
             Answer 0 (QuoteReply (Ok (Sample.quote "AAPL"))); ClickCard 0 false;
             Answer 0 (HistoryReply (Ok Sample.history)) ]).
  vm_compute. reflexivity.
Defined.

(** X2: a reload gives the watchlist back.  In every state of a run that
    began with the listener of [DOMContentLoaded], opening the page anew on
    the persisted entry makes the listener end with the same watchlist. *)
Theorem reload_restores (saved : option string) (bs bs' : list button)
    (evs : list event) (st : State) :
  run (initial saved bs) (DOMContentLoaded :: evs) = Some st ->
  exists c,
    onDOMContentLoaded (initial (localStorage st) bs') = Some c /\
    stocks (final c) = stocks st.
Proof.
  intros Hrun. cbn [run] in Hrun.
  destruct (step (initial saved bs) DOMContentLoaded) as [st1|] eqn:Hstep;
    [|discriminate].
  assert (H1 : persisted st1 \/ (untouched saved st1 /\ unloadable saved)).
  { cbn [step] in Hstep.
    destruct (onDOMContentLoaded (initial saved bs)) as [c|] eqn:E; [|discriminate].
    assert (st1 = final c) as -> by (destruct c; by injection Hstep as <-).
    destruct (onDOMContentLoaded_watchlist _ c E) as [Hl [[Hs [Hu|Hp]]|Hp]].
    - right. by repeat split.
    - left. destruct Hp as (text & Ht & Hp). exists text. by rewrite Hl, Hs.
    - left. destruct Hp as (text & Ht & Hp). exists text. by rewrite Hl. }
  assert (H : persisted st \/ (untouched saved st /\ unloadable saved)).
  { eapply (run_invariant
              (fun st => persisted st \/ (untouched saved st /\ unloadable saved)));
      [ intros ? ? ?; apply (step_synced unloadable) | exact H1 | exact Hrun ]. }
  unfold onDOMContentLoaded. cbn [localStorage initial].
  destruct H as [(text & Ht & Hp)|[[Hs Hl] Hu]].
  - rewrite Ht. destruct (Js.falsy text) eqn:Hf.
    { apply falsy_empty in Hf. subst text. discriminate Hp. }
    rewrite Hp, JsonFacts.strings_Str.
    destruct (forEach_fetchStockData (stocks st)
                (setStocks (stocks st) (initial (Some text) bs')))
      as (st' & Hrun' & Hst & _).
    eexists. split; [reflexivity|]. monad. cbn [stocks setStocks].
    by rewrite Hrun'.
  - rewrite Hl, Hs. destruct Hu as [->|[->|(text & -> & Hp)]].
    + by eexists.
    + by eexists.
    + destruct (Js.falsy text); [by eexists|]. rewrite Hp. by eexists.
Qed.

Lemma reload_restores_witness :
  exists c,
    onDOMContentLoaded (initial (Some (Json.stringify ["AAPL"])) []) = Some c /\
    stocks (final c) = ["AAPL"].
Proof.
  exact (reload_restores None [Sample.periodButton; Sample.predictButton] []
           [ Input "aapl  "; ClickAdd ]
           (default Sample.page
              (run Sample.page [ DOMContentLoaded; Input "aapl  "; ClickAdd ]))
           eq_refl).
Defined.

Lemma Str_fmap_inj (l k : list string) : Json.Str <$> l = Json.Str <$> k -> l = k.
Proof.
  intros H. apply (f_equal Json.strings) in H.
  rewrite !JsonFacts.strings_Str in H. by injection H.
Qed.

(** X3: the watchlist never holds a symbol twice.  When the entry the page
    is opened with does not decode to a list with a duplicate, no state of
    a run has a duplicate in its watchlist. *)
Theorem watchlist_NoDup (saved : option string) (bs : list button)
    (evs : list event) (st : State) :
  (forall text l, saved = Some text ->
     Json.parse text = Some (Json.Array (Json.Str <$> l)) -> NoDup l) ->
  run (initial saved bs) evs = Some st ->
  NoDup (stocks st).
Proof.
  intros Hsaved Hrun.
  enough (H : NoDup (stocks st) /\ (persisted st \/ (untouched saved st /\ True)))
    by apply H.
  eapply (run_invariant
            (fun st => NoDup (stocks st) /\
                       (persisted st \/ (untouched saved st /\ True))));
    [ | | exact Hrun ].
  - clear st Hrun. intros st ev st' [Hnd Hsync] Hstep.
    split; [|by eapply (step_synced (fun _ => True))].
    destruct (step_watchlist st ev st' Hstep)
      as [[Hs _]|[[_ (text & Ht & Hp)]|[(s & Hnew & Hs & _)|(s & Hs & _)]]].
    + by rewrite Hs.
    + destruct Hsync as [(text' & Ht' & Hp')|[[_ Hl] _]].
      * assert (text' = text) as -> by congruence.
        rewrite Hp in Hp'. injection Hp' as Heq.
        by rewrite (Str_fmap_inj _ _ Heq).
      * rewrite Hl in Ht. by apply (Hsaved text).
    + rewrite Hs. apply NoDup_app. split; [exact Hnd|].
      split; [|apply NoDup_singleton].
      intros x Hx Hx'. apply list_elem_of_singleton in Hx'. by subst x.
    + rewrite Hs. by apply NoDup_filter.
  - split; [apply NoDup_nil_2 | right; by split].
Qed.

Lemma watchlist_NoDup_witness :
  NoDup (stocks (default Sample.page
           (run (initial (Some (Json.stringify ["AAPL"; "MSFT"])) [])
              [ DOMContentLoaded; Input "aapl"; ClickAdd; Input "goog"; ClickAdd ]))).
Proof.
  apply (watchlist_NoDup (Some (Json.stringify ["AAPL"; "MSFT"])) []
           [ DOMContentLoaded; Input "aapl"; ClickAdd; Input "goog"; ClickAdd ]).
  - intros text l [= <-] Hp. rewrite JsonFacts.parse_stringify in Hp.
    injection Hp as Heq. apply (Str_fmap_inj ["AAPL"; "MSFT"] l) in Heq. subst l.
    apply (bool_decide_unpack _). by vm_compute.
  - vm_compute. reflexivity.
Defined.

(** ** Adding and removing *)






(** *** Cards are distinct elements *)

Ltac freshElements_frame :=
  idtac; match goal with H : freshElements _ |- freshElements _ => exact H end.

Lemma freshElements_onElement e f :
  (forall c, element (f c) = element c) -> preserves freshElements (onElement e f).
Proof.
  intros Hf st [Hnd Hlt]. unfold onElement, modify, freshElements in *.
  cbn [stockCards setStockCards nextId]. split.
  - rewrite <- list_fmap_compose. erewrite list_fmap_ext; [exact Hnd|].
    intros i c _. cbn. by destruct (bool_decide _).
  - apply Forall_fmap. eapply Forall_impl; [exact Hlt|].
    intros c Hc. cbn. destruct (bool_decide _); [by rewrite Hf | exact Hc].
Qed.

Lemma freshElements_removeElement e : preserves freshElements (removeElement e).
Proof.
  intros st [Hnd Hlt]. unfold removeElement, modify, freshElements in *.
  cbn [stockCards setStockCards nextId]. split.
  - eapply sublist_NoDup; [exact Hnd|]. apply fmap_sublist, sublist_filter.
  - apply Forall_forall. intros c [_ Hc]%list_elem_of_filter.
    rewrite Forall_forall in Hlt. by apply Hlt.
Qed.

Lemma freshElements_fetchStockData b s : preserves freshElements (fetchStockData b s).
Proof.
  intros st [Hnd Hlt]. unfold fetchStockData, createCard. monad.
  destruct (getElementById _ st); [by split|].
  unfold freshElements. cbn [stockCards setStockCards setInflight setNextId nextId].
  split.
  - rewrite fmap_app. apply NoDup_app. split; [exact Hnd|].
    split; [|apply NoDup_singleton].
    intros e He He'. apply list_elem_of_singleton in He'. subst e.
    apply list_elem_of_fmap in He as (c & Hc & Hin).
    rewrite Forall_forall in Hlt. specialize (Hlt c Hin). cbn in Hlt, Hc. lia.
  - apply Forall_app. split.
    + eapply Forall_impl; [exact Hlt|]. intros c Hc. cbn in *. lia.
    + apply Forall_singleton. cbn. lia.
Qed.

Lemma freshElements_drawChart lbls d t split :
  preserves freshElements (drawChart lbls d t split).
Proof.
  intros st [Hnd Hlt]. rewrite drawChart_normal, drawChart_exec.
  unfold freshElements, newChart, destroyCurrent.
  destruct (currentChart st); cbn; (split; [exact Hnd|]);
    (eapply Forall_impl; [exact Hlt|]); intros c Hc; cbn in *; lia.
Qed.

Lemma freshElements_removeStock s : preserves freshElements (removeStock s).
Proof.
  unfold removeStock, setItem. preserve freshElements_frame.
  apply freshElements_removeElement.
Qed.

Lemma freshElements_addStock : preserves freshElements addStock.
Proof.
  unfold addStock, showAlert, setItem. preserve freshElements_frame.
  apply freshElements_fetchStockData.
Qed.

Lemma freshElements_showChart s : preserves freshElements (showChart s).
Proof.
  unfold showChart, deactivateAll, activate, fetchHistory, fetch.
  preserve freshElements_frame.
Qed.

Lemma freshElements_showHistory p t : preserves freshElements (showHistory p t).
Proof.
  unfold showHistory, deactivateAll, activate, fetchHistory, fetch.
  preserve freshElements_frame.
Qed.

Lemma freshElements_showPrediction t : preserves freshElements (showPrediction t).
Proof. unfold showPrediction, fetch. preserve freshElements_frame. Qed.

Lemma freshElements_resume k p m : resume k p = Some m -> preserves freshElements m.
Proof.
  destruct k, p; cbn [resume]; intros [= <-].
  - unfold fetchStockData_resume, displayStock, setTimeout.
    preserve freshElements_frame; by apply freshElements_onElement.
  - unfold fetchHistory_resume, consoleError. preserve freshElements_frame.
    apply freshElements_drawChart.
  - unfold showPrediction_resume, showAlert, fetch, release.
    preserve freshElements_frame.
  - unfold showPrediction_resume2, showAlert, release. preserve freshElements_frame.
    apply freshElements_drawChart.
Qed.

Lemma freshElements_step st ev st' :
  freshElements st -> step st ev = Some st' -> freshElements st'.
Proof.
  apply step_invariant.
  - clear. intros st c H E. unfold onDOMContentLoaded in E.
    destruct (localStorage st) as [saved|]; [|by injection E as <-].
    destruct (Js.falsy saved); [by injection E as <-|].
    destruct (Json.parse saved) as [[]|]; try discriminate; [|by injection E as <-].
    destruct (Json.strings items) as [l|]; [|discriminate].
    assert (Hp : preserves freshElements
              (modify (setStocks l) ;; st ← get; forEach (stocks st) (fetchStockData false))).
    { preserve freshElements_frame. apply freshElements_fetchStockData. }
    specialize (Hp st H). injection E as <-.
    match type of Hp with match ?x with _ => _ end => by destruct x end.
  - intros v s H. exact H.
  - intros s H. by apply preserves_exec; [apply freshElements_addStock|].
  - intros s s0 H. by apply preserves_exec; [apply freshElements_removeStock|].
  - intros s s0 H. by apply preserves_exec; [apply freshElements_showChart|].
  - intros p t s _ H. by apply preserves_exec; [apply freshElements_showHistory|].
  - intros t s _ H. by apply preserves_exec; [apply freshElements_showPrediction|].
  - intros s i url k p m _ Hm H.
    apply preserves_exec; [by eapply freshElements_resume | exact H].
  - intros s i H. exact H.
Qed.

Lemma freshElements_initial saved bs : freshElements (initial saved bs).
Proof. split; [apply NoDup_nil_2 | apply Forall_nil_2]. Qed.

(** In a state of a run, the card [getElementById] finds is the only card
    with its [id] and the only card that is its element. *)
Lemma card_of_id (saved : option string) (bs : list button) (evs : list event)
    (st : State) (id : string) (card : card) :
  run (initial saved bs) evs = Some st ->
  getElementById id st = Some card ->
  forall c, c ∈ stockCards st -> (element c = element card <-> elementId c = id).
Proof.
  intros Hrun Hget c Hc.
  assert (Hids : uniqueIds st).
  { eapply (run_invariant uniqueIds); [apply uniqueIds_step | | exact Hrun].
    apply uniqueIds_initial. }
  assert (Hel : freshElements st).
  { eapply (run_invariant freshElements); [apply freshElements_step | | exact Hrun].
    apply freshElements_initial. }
  apply getElementById_Some in Hget as [Hcard Hid]. split; intros H.
  - assert (c = card) as -> by (by apply (NoDup_fmap_inj element (stockCards st)); [apply Hel|..]).
    exact Hid.
  - f_equal. apply (NoDup_fmap_inj elementId (stockCards st)); try done. congruence.
Qed.

Lemma filter_ext_in {A} (P Q : A -> Prop) `{!forall x, Decision (P x)}
    `{!forall x, Decision (Q x)} (l : list A) :
  (forall x, x ∈ l -> (P x <-> Q x)) -> filter P l = filter Q l.
Proof.
  induction l as [|x l IH]; intros Hext; [done|].
  rewrite !filter_cons.
  assert (Hx : P x <-> Q x) by (apply Hext; left).
  rewrite IH by (intros y Hy; apply Hext; by right).
  destruct (decide (P x)), (decide (Q x)); tauto.
Qed.

(** ** Removing a symbol *)

Lemma removeStock_exec (s : string) (st : State) :
  let l := filter (fun x => x <> s) (stocks st) in
  let st1 := setLocalStorage (Some (Json.stringify l)) (setStocks l st) in
  let st2 :=
    match getElementById ("stock-" +:+ s) st with
    | Some card =>
        setStockCards (filter (fun c => element c <> element card) (stockCards st)) st1
    | None => st1
    end in
  exec (removeStock s) st =
  if bool_decide (currentSymbol st = Some s)
  then setChartSection (Some "none") st2 else st2.
Proof.
  unfold removeStock, exec. monad.
  cbn [stocks currentSymbol setStocks setLocalStorage].
  change (getElementById ("stock-" +:+ s) (setStocks _ st))
    with (getElementById ("stock-" +:+ s) st).
  destruct (getElementById _ st);
    cbn [currentSymbol setStockCards setLocalStorage setStocks];
    case_bool_decide; reflexivity.
Qed.

(** X6: in a state of a run, [removeStock] of a symbol filters it out of
    the watchlist, takes out of the document the card with the id of that
    symbol and no other card, and hides the chart section exactly when the
    symbol is the charted one.  It keeps the charted symbol, the chart, the
    requests in flight and the timers as they are. *)
Theorem removeStock_effect (saved : option string) (bs : list button)
    (evs : list event) (st : State) (s : string) :
  run (initial saved bs) evs = Some st ->
  let st' := exec (removeStock s) st in
  stocks st' = filter (fun x => x <> s) (stocks st) /\
  stockCards st' = filter (fun c => elementId c <> "stock-" +:+ s) (stockCards st) /\
  chartSection st' =
    (if bool_decide (currentSymbol st = Some s) then Some "none" else chartSection st) /\
  currentSymbol st' = currentSymbol st /\
  currentChart st' = currentChart st /\ charts st' = charts st /\
  inflight st' = inflight st /\ timers st' = timers st.
Proof.
  intros Hrun st'. subst st'. rewrite removeStock_exec.
  assert (Hcards :
    match getElementById ("stock-" +:+ s) st with
    | Some card => filter (fun c => element c <> element card) (stockCards st)
    | None => stockCards st
    end = filter (fun c => elementId c <> "stock-" +:+ s) (stockCards st)).
  { destruct (getElementById _ st) as [card|] eqn:E.
    - apply filter_ext_in. intros c Hc.
      pose proof (card_of_id saved bs evs st _ card Hrun E c Hc). tauto.
    - symmetry. clear Hrun. pose proof (getElementById_None _ _ E) as Hnone.
      induction (stockCards st) as [|c l IH]; [done|].
      rewrite filter_cons_True by (apply Hnone; left).
      rewrite IH; [done|]. intros c' Hc'. apply Hnone. by right. }
  rewrite <- Hcards.
  destruct (getElementById _ st); case_bool_decide; repeat split.
Qed.

Lemma removeStock_effect_witness :
  let st' := exec (removeStock "AAPL") Sample.charted in
  stocks st' = [] /\ stockCards st' = [] /\ chartSection st' = Some "none" /\
  currentSymbol st' = Some "AAPL" /\ length (charts st') = 1.
Proof.
  destruct (removeStock_effect None [Sample.periodButton; Sample.predictButton]
              [ Input "aapl  "; ClickAdd;
                Answer 0 (QuoteReply (Ok (Sample.quote "AAPL"))); ClickCard 0 false;
                Answer 0 (HistoryReply (Ok Sample.history)) ]
              Sample.charted "AAPL")
    as (Hs & Hc & Hsec & Hsym & _ & Hch & _); [vm_compute; reflexivity|].
  cbv zeta. rewrite Hs, Hc, Hsec, Hsym, Hch. vm_compute. repeat split.
Defined.

(** ** Opening a chart and choosing a period *)

Lemma buttons_activate (i : nat) (bs : list button) (j : nat) (b : button) :
  bs !! j = Some b ->
  exists b',
    alter (setActive true) i
      ((fun b => if inChartControls b then setActive false b else b) <$> bs) !! j
    = Some b' /\
    inChartControls b' = inChartControls b /\ disabled b' = disabled b /\
    textContent b' = textContent b /\
    active b' = (if bool_decide (j = i) then true
                 else if inChartControls b then false else active b).
Proof.
  intros Hj. destruct (decide (i = j)) as [->|Hne].
  - rewrite list_lookup_alter_eq, list_lookup_fmap, Hj.
    rewrite bool_decide_eq_true_2 by done. eexists. split; [reflexivity|].
    destruct (inChartControls b) eqn:E; cbn; rewrite ?E; done.
  - rewrite list_lookup_alter_ne, list_lookup_fmap, Hj by done.
    rewrite bool_decide_eq_false_2 by congruence. eexists. split; [reflexivity|].
    destruct (inChartControls b) eqn:E; cbn; rewrite ?E; done.
Qed.

(** X7: [showChart] of a symbol, on a page with a button in the chart
    controls, makes the symbol the charted one, shows the chart section
    with its title, resets the period to [1mo], puts one history request
    for the symbol and that period in flight, and leaves active, among the
    buttons of the chart controls, the first one only.  On a page without
    such a button it throws after the title is set: the period is not reset
    and no request is made. *)
Theorem showChart_effect (st : State) (s : string) :
  match firstControl (buttons st) with
  | Some i =>
      exists st',
        showChart s st = Normal tt st' /\
        currentSymbol st' = Some s /\ currentPeriod st' = "1mo" /\
        chartSection st' = Some "block" /\
        chartTitle st' = s +:+ " - Stock History" /\
        inflight st' = inflight st ++
          [(API_URL +:+ "/history/" +:+ s +:+ "?period=1mo", AfterHistory s)] /\
        forall j b, buttons st !! j = Some b ->
          exists b', buttons st' !! j = Some b' /\
            inChartControls b' = inChartControls b /\ disabled b' = disabled b /\
            textContent b' = textContent b /\
            active b' = (if bool_decide (j = i) then true
                         else if inChartControls b then false else active b)
  | None =>
      exists st',
        showChart s st = Throw TypeError st' /\
        currentSymbol st' = Some s /\ chartTitle st' = s +:+ " - Stock History" /\
        currentPeriod st' = currentPeriod st /\ inflight st' = inflight st
  end.
Proof.
  assert (Hfirst : forall bs,
    firstControl ((fun b => if inChartControls b then setActive false b else b) <$> bs)
    = firstControl bs).
  { induction bs as [|b bs IH]; [done|]. cbn [fmap list_fmap firstControl].
    change (list_fmap _ _ ?f bs) with (f <$> bs). rewrite IH.
    destruct (inChartControls b) eqn:E; cbn; by rewrite E. }
  unfold showChart, deactivateAll, activate, fetchHistory. monad.
  cbn [buttons setButtons setChartTitle setChartSection setCurrentSymbol].
  rewrite Hfirst.
  destruct (firstControl (buttons st)) as [i|].
  - eexists. split; [reflexivity|]. do 5 (split; [reflexivity|]).
    intros j b Hj. cbn [buttons setInflight setCurrentPeriod setButtons].
    by apply buttons_activate.
  - eexists. split; [reflexivity|]. repeat split.
Qed.

(** X8: [showHistory] of a period, while a symbol is charted, makes the
    period the current one, puts one history request for the charted
    symbol and that period in flight, and leaves active the button clicked
    and, among the buttons of the chart controls, no other. *)
Theorem showHistory_effect (st : State) (period : string) (target : nat) (s : string) :
  currentSymbol st = Some s -> s <> "" ->
  exists st',
    showHistory period target st = Normal tt st' /\
    currentPeriod st' = period /\ currentSymbol st' = Some s /\
    inflight st' = inflight st ++
      [(API_URL +:+ "/history/" +:+ s +:+ "?period=" +:+ period, AfterHistory s)] /\
    charts st' = charts st /\
    forall j b, buttons st !! j = Some b ->
      exists b', buttons st' !! j = Some b' /\
        inChartControls b' = inChartControls b /\ disabled b' = disabled b /\
        textContent b' = textContent b /\
        active b' = (if bool_decide (j = target) then true
                     else if inChartControls b then false else active b).
Proof.
  intros Hs Hne. unfold showHistory, deactivateAll, activate, fetchHistory. monad.
  rewrite Hs. cbn [falsy]. destruct s; [done|]. cbn [Js.falsy Js.isEmpty].
  eexists. split; [reflexivity|].
  cbn [currentSymbol setButtons setCurrentPeriod text]. rewrite Hs.
  split; [reflexivity|]. split; [exact Hs|]. do 2 (split; [reflexivity|]).
  intros j b Hj. cbn [buttons setInflight setCurrentPeriod setButtons].
  by apply buttons_activate.
Qed.

Lemma showHistory_effect_witness :
  exists st',
    showHistory "1y" 1 Sample.charted = Normal tt st' /\
    currentPeriod st' = "1y" /\
    (active <$> buttons st') = [false; true].
Proof.
  destruct (showHistory_effect Sample.charted "1y" 1 "AAPL" eq_refl)
    as (st' & Hrun & Hp & _); [discriminate|].
  exists st'. split; [exact Hrun|]. split; [exact Hp|].
  vm_compute in Hrun. injection Hrun as <-. reflexivity.
Defined.

(** ** Answers *)

Lemma at_final (l : list Q) :
  at_ l (length l - 1) = match last l with Some x => num x | None => undefined end.
Proof.
  unfold at_. rewrite last_lookup.
  by replace (length l - 1) with (Nat.pred (length l)) by lia.
Qed.

(** X9: every way a prediction ends shows one alert.  An answer to the
    prediction request that is not a prediction shows the server's error,
    or the failure message on a rejection.  A failed history request,
    a response that is not ok included, shows the failure message.  In all
    these cases the chart is untouched.  On success the alert gives the
    charted symbol, the current price, the last predicted price and the
    change with a plus sign when it is not negative. *)
Theorem showPrediction_alerts (st : State) (btn : nat) :
  (forall r, (forall fc, r <> Ok fc) ->
   let st' := exec (showPrediction_resume btn r) st in
   alerts st' = alerts st ++
     [match r with
      | NotOk error => Alert ("Error: " +:+ error)
      | _ => predictionFailed
      end] /\
   charts st' = charts st /\ currentChart st' = currentChart st /\
   inflight st' = inflight st) /\
  (forall fc r,
   let st' := exec (showPrediction_resume2 btn fc r) st in
   match r with
   | Ok h =>
       alerts st' = alerts st ++
         [PredictionAlert (text (currentSymbol st)) (current_price fc)
            (match last (prices (predictions fc)) with
             | Some x => num x
             | None => undefined
             end)
            (if Qle_bool 0 (predicted_change fc) then "+" else "")
            (predicted_change fc) (predicted_change_percent fc)]
   | _ =>
       alerts st' = alerts st ++ [predictionFailed] /\
       charts st' = charts st /\ currentChart st' = currentChart st
   end).
Proof.
  split.
  - intros r Hfail. unfold showPrediction_resume, release. monad.
    destruct r as [|error|fc]; [| |by destruct (Hfail fc)]; repeat split.
  - intros fc r. unfold showPrediction_resume2, release.
    destruct r as [|error|h]; monad; [repeat split..|].
    rewrite drawChart_normal, drawChart_exec, <- at_final.
    unfold newChart, destroyCurrent. by destruct (currentChart st).
Qed.

Lemma showPrediction_alerts_witness :
  alerts (exec (showPrediction_resume 1 (NotOk "No data")) Sample.predicting)
  = [Alert "Error: No data"].
Proof.
  destruct (showPrediction_alerts Sample.predicting 1) as [Hfail _].
  destruct (Hfail (NotOk "No data")) as [Ha _]; [discriminate|]. exact Ha.
Defined.

(** X10: when the history of [fetchHistory] arrives, the chart of the run
    is replaced by one chart with the single dataset "Price" over the whole
    series, titled with the symbol the request was made for, whatever symbol
    is charted by then; nothing is alerted or logged. *)
Theorem fetchHistory_draws (saved : option string) (bs : list button)
    (evs : list event) (st : State) (s : string) (h : HistorySeries) :
  run (initial saved bs) evs = Some st ->
  let st' := exec (fetchHistory_resume s (Ok h)) st in
  currentChart st' = Some (nextId st) /\
  charts st' =
    [(nextId st,
      {| chartType := "line"; labels := dates h;
         datasets := [solid "Price" (num <$> prices h)];
         title := s +:+ " Price History" |})] /\
  alerts st' = alerts st /\ console st' = console st /\
  currentSymbol st' = currentSymbol st.
Proof.
  intros Hrun st'.
  assert (H : oneChart st).
  { eapply (run_invariant oneChart); [apply oneChart_step | | exact Hrun].
    apply oneChart_initial. }
  subst st'. unfold fetchHistory_resume. monad.
  rewrite drawChart_normal, drawChart_exec. unfold newChart.
  cbn [currentChart charts alerts console currentSymbol
       setCurrentChart setCharts setNextId].
  rewrite nextId_destroyCurrent, (oneChart_destroyCurrent st H).
  repeat split; unfold destroyCurrent; by destruct (currentChart st).
Qed.

Lemma fetchHistory_draws_witness :
  title <$> (snd <$> charts (exec (fetchHistory_resume "MSFT" (Ok Sample.history))
                               Sample.charted))
  = ["MSFT Price History"].
Proof.
  destruct (fetchHistory_draws None [Sample.periodButton; Sample.predictButton]
              [ Input "aapl  "; ClickAdd;
                Answer 0 (QuoteReply (Ok (Sample.quote "AAPL"))); ClickCard 0 false;
                Answer 0 (HistoryReply (Ok Sample.history)) ]
              Sample.charted "MSFT" Sample.history)
    as (_ & Hch & _); [vm_compute; reflexivity|].
  rewrite Hch. reflexivity.
Defined.

(** X11: in a state of a run, [displayStock] of a quote whose card is in
    the document rewrites that card and no other: it loses the class
    [loading], shows the quote and opens the chart of the quote's symbol on
    a click.  The change is shown as positive, with a plus sign, exactly when
    it is not negative: a change of zero is positive.  Without the card,
    [displayStock] throws and writes nothing. *)
Theorem displayStock_effect (saved : option string) (bs : list button)
    (evs : list event) (st : State) (data : Quote) :
  run (initial saved bs) evs = Some st ->
  let id := "stock-" +:+ symbol data in
  match getElementById id st with
  | None => displayStock data st = Throw TypeError st
  | Some _ =>
      exists st' changeClass changeSign,
        displayStock data st = Normal tt st' /\
        stockCards st' =
          ((fun c => if bool_decide (elementId c = id)
                     then {| element := element c; elementId := id;
                             className := "stock-card";
                             innerHTML := Shown data changeClass changeSign;
                             onclick := Some (symbol data) |}
                     else c) <$> stockCards st) /\
        ((0 <= change data)%Q -> changeClass = "positive" /\ changeSign = "+") /\
        ((change data < 0)%Q -> changeClass = "negative" /\ changeSign = "") /\
        stocks st' = stocks st /\ timers st' = timers st
  end.
Proof.
  intros Hrun id. unfold displayStock. monad. fold id.
  destruct (getElementById id st) as [card|] eqn:E; [|reflexivity].
  do 3 eexists. split; [reflexivity|].
  cbn [stockCards setStockCards stocks timers]. split; [|split; [|split]].
  - apply list_fmap_ext. intros i c Hc.
    apply list_elem_of_lookup_2 in Hc.
    pose proof (card_of_id saved bs evs st id card Hrun E c Hc) as Hiff.
    destruct (bool_decide (element c = element card)) eqn:B1;
      destruct (bool_decide (elementId c = id)) eqn:B2; try reflexivity.
    + apply bool_decide_eq_true in B2. by rewrite B2.
    + apply bool_decide_eq_true in B1. apply bool_decide_eq_false in B2. tauto.
    + apply bool_decide_eq_false in B1. apply bool_decide_eq_true in B2. tauto.
  - intros Hpos. apply Qle_bool_iff in Hpos. unfold signClass, sign. by rewrite Hpos.
  - intros Hneg. unfold signClass, sign.
    destruct (Qle_bool 0 (change data)) eqn:B; [|done].
    apply Qle_bool_iff in B. by apply Qlt_not_le in Hneg.
  - done.
Qed.

Lemma displayStock_effect_witness :
  exists st',
    displayStock (Sample.quote "ZZZZ") Sample.adding = Normal tt st' /\
    (innerHTML <$> stockCards st') = [Shown (Sample.quote "ZZZZ") "positive" "+"].
Proof.
  pose proof (displayStock_effect None [Sample.periodButton; Sample.predictButton]
                [ Input "zzzz"; ClickAdd ] Sample.adding (Sample.quote "ZZZZ")) as H.
  cbv zeta in H.
  change (getElementById ("stock-" +:+ symbol (Sample.quote "ZZZZ")) Sample.adding)
    with (Some {| element := 0; elementId := "stock-ZZZZ";
                  className := "stock-card loading"; innerHTML := Loading;
                  onclick := None |}) in H.
  destruct H as (st' & cls & sgn & Hrun & Hc & Hpos & _); [vm_compute; reflexivity|].
  exists st'. split; [exact Hrun|]. rewrite Hc.
  destruct Hpos as [-> ->]; [vm_compute; discriminate|]. reflexivity.
Defined.


(** ** While a prediction is awaited *)

Lemma omap_delete_Some {A B} (f : A -> option B) (l : list A) (i : nat) (x : A) (y : B) :
  l !! i = Some x -> f x = Some y ->
  exists l1 l2, omap f l = l1 ++ y :: l2 /\ omap f (delete i l) = l1 ++ l2.
Proof.
  intros Hi Hf. exists (omap f (take i l)), (omap f (drop (S i) l)). split.
  - rewrite <- (take_drop_middle l i x Hi) at 1.
    rewrite omap_app. cbn [omap list_omap]. by rewrite Hf.
  - by rewrite delete_take_drop, omap_app.
Qed.

Lemma omap_delete_None {A B} (f : A -> option B) (l : list A) (i : nat) (x : A) :
  l !! i = Some x -> f x = None -> omap f (delete i l) = omap f l.
Proof.
  intros Hi Hf. rewrite <- (take_drop_middle l i x Hi) at 2.
  rewrite delete_take_drop, !omap_app. cbn [omap list_omap]. by rewrite Hf.
Qed.

Lemma predictingButtons_fetch url k st :
  predictingButtons (setInflight (inflight st ++ [(url, k)]) st)
  = predictingButtons st ++ match heldButton k with Some b => [b] | None => [] end.
Proof.
  unfold predictingButtons. cbn [inflight setInflight]. rewrite omap_app.
  cbn. by destruct (heldButton k).
Qed.

Ltac keepsBusy_frame :=
  idtac; match goal with H : keepsBusy _ _ _ |- keepsBusy _ _ _ => exact H end.

Lemma keepsBusy_fetch l B url k :
  heldButton k = None -> preserves (keepsBusy l B) (fetch url k).
Proof.
  intros Hk st [Hl Hb]. unfold fetch, modify. split; [|exact Hb].
  by rewrite predictingButtons_fetch, Hk, app_nil_r.
Qed.

Lemma busyAt_buttons (st st' : State) (btn : nat) :
  (forall b, buttons st !! btn = Some b ->
     exists b', buttons st' !! btn = Some b' /\
       disabled b' = disabled b /\ textContent b' = textContent b) ->
  busyAt st btn -> busyAt st' btn.
Proof.
  intros H (b & Hb & Hd & Ht). destruct (H b Hb) as (b' & Hb' & Hd' & Ht').
  exists b'. split; [exact Hb'|]. split; congruence.
Qed.

Lemma keepsBusy_deactivateAll l B : preserves (keepsBusy l B) deactivateAll.
Proof.
  intros st [Hl Hb]. unfold deactivateAll, modify. split; [exact Hl|].
  intros btn Hbtn. eapply busyAt_buttons; [|by apply Hb].
  intros b Hlook. cbn [buttons setButtons]. rewrite list_lookup_fmap, Hlook.
  eexists. split; [reflexivity|]. by destruct (inChartControls b).
Qed.

Lemma keepsBusy_activate l B i : preserves (keepsBusy l B) (activate i).
Proof.
  intros st [Hl Hb]. unfold activate, modify. split; [exact Hl|].
  intros btn Hbtn. eapply busyAt_buttons; [|by apply Hb].
  intros b Hlook. cbn [buttons setButtons].
  destruct (decide (i = btn)) as [->|Hne].
  - rewrite list_lookup_alter_eq, Hlook. eexists. by split.
  - rewrite list_lookup_alter_ne, Hlook by done. eexists. by split.
Qed.

Lemma keepsBusy_drawChart l B lbls d t split :
  preserves (keepsBusy l B) (drawChart lbls d t split).
Proof.
  intros st H. rewrite drawChart_normal, drawChart_exec.
  unfold newChart, destroyCurrent. by destruct (currentChart st).
Qed.

Lemma keepsBusy_fetchStockData l B b s : preserves (keepsBusy l B) (fetchStockData b s).
Proof.
  unfold fetchStockData. preserve keepsBusy_frame.
  - intros st H. exact H.
  - by apply keepsBusy_fetch.
Qed.

Lemma keepsBusy_removeStock l B s : preserves (keepsBusy l B) (removeStock s).
Proof.
  unfold removeStock, setItem, removeElement. preserve keepsBusy_frame.
Qed.

Lemma keepsBusy_addStock l B : preserves (keepsBusy l B) addStock.
Proof.
  unfold addStock, showAlert, setItem. preserve keepsBusy_frame.
  apply keepsBusy_fetchStockData.
Qed.

Lemma keepsBusy_showChart l B s : preserves (keepsBusy l B) (showChart s).
Proof.
  unfold showChart, fetchHistory. preserve keepsBusy_frame;
    auto using keepsBusy_deactivateAll, keepsBusy_activate, keepsBusy_fetch.
Qed.

Lemma keepsBusy_showHistory l B p t : preserves (keepsBusy l B) (showHistory p t).
Proof.
  unfold showHistory, fetchHistory. preserve keepsBusy_frame;
    auto using keepsBusy_deactivateAll, keepsBusy_activate, keepsBusy_fetch.
Qed.

Lemma keepsBusy_fetchStockData_resume l B s e c r :
  preserves (keepsBusy l B) (fetchStockData_resume s e c r).
Proof.
  unfold fetchStockData_resume, displayStock, onElement, setTimeout.
  preserve keepsBusy_frame.
Qed.

Lemma keepsBusy_fetchHistory_resume l B s r :
  preserves (keepsBusy l B) (fetchHistory_resume s r).
Proof.
  unfold fetchHistory_resume, consoleError. preserve keepsBusy_frame.
  apply keepsBusy_drawChart.
Qed.

(** From the invariant to the frame of a handler, and back. *)
Lemma busy_keeps (st : State) :
  busyWhilePredicting st ->
  keepsBusy (predictingButtons st) (fun btn => btn ∈ predictingButtons st) st.
Proof. intros [_ H]. by split. Qed.

Lemma keeps_busy (st st' : State) :
  NoDup (predictingButtons st) ->
  keepsBusy (predictingButtons st) (fun btn => btn ∈ predictingButtons st) st' ->
  busyWhilePredicting st'.
Proof. intros Hnd [Hl Hb]. split; rewrite Hl; [exact Hnd | exact Hb]. Qed.

Lemma busy_preserved {A} (m : M A) (st : State) :
  (forall l B, preserves (keepsBusy l B) m) ->
  busyWhilePredicting st -> busyWhilePredicting (exec m st).
Proof.
  intros Hm H. apply (keeps_busy st); [apply H|].
  apply preserves_exec; [apply Hm | by apply busy_keeps].
Qed.

Lemma inflight_showPrediction_resume2 btn fc r st :
  inflight (exec (showPrediction_resume2 btn fc r) st) = inflight st.
Proof.
  unfold showPrediction_resume2, drawChart, release, newChart, destroyCurrent.
  destruct r as [|error|histData]; monad; [reflexivity..|].
  by destruct (currentChart st).
Qed.

(** The end of a prediction: the request leaves the requests in flight and
    its button is released. *)
Lemma busy_released (st st' : State) (i : nat) (url : string) (k : continuation)
    (btn : nat) :
  busyWhilePredicting st ->
  inflight st !! i = Some (url, k) -> heldButton k = Some btn ->
  inflight st' = delete i (inflight st) ->
  buttons st' = alter (setBusy false "Show Prediction") btn (buttons st) ->
  busyWhilePredicting st'.
Proof.
  intros [Hnd Hbusy] Hi Hk Hin Hbs.
  destruct (omap_delete_Some (fun request => heldButton request.2) _ i _ btn Hi Hk)
    as (l1 & l2 & Hall & Hdel).
  unfold busyWhilePredicting, predictingButtons in *. rewrite Hin, Hdel.
  rewrite Hall in Hnd, Hbusy.
  apply NoDup_app in Hnd as (Hnd1 & Hdisj & Hnd2).
  apply NoDup_cons in Hnd2 as [Hnot2 Hnd2].
  split.
  - apply NoDup_app. split; [exact Hnd1|]. split; [|exact Hnd2].
    intros x Hx Hx'. apply (Hdisj x Hx). by right.
  - intros b' Hb'.
    assert (Hne : btn <> b').
    { intros <-. apply elem_of_app in Hb' as [Hb'|Hb']; [|done].
      apply (Hdisj btn Hb'). left. }
    assert (Hold : busyAt st b').
    { apply Hbusy. apply elem_of_app in Hb' as [Hb'|Hb'];
        apply elem_of_app; [by left | right; by right]. }
    destruct Hold as (b & Hb & Hd). exists b. split; [|exact Hd].
    by rewrite Hbs, list_lookup_alter_ne.
Qed.

Lemma busy_step st ev st' :
  busyWhilePredicting st -> step st ev = Some st' -> busyWhilePredicting st'.
Proof.
  apply step_invariant.
  - clear. intros st c H E. unfold onDOMContentLoaded in E.
    destruct (localStorage st) as [saved|]; [|by injection E as <-].
    destruct (Js.falsy saved); [by injection E as <-|].
    destruct (Json.parse saved) as [[]|]; try discriminate; [|by injection E as <-].
    destruct (Json.strings items) as [l|]; [|discriminate].
    injection E as <-.
    assert (Hb : busyWhilePredicting
              (exec (modify (setStocks l) ;; st ← get;
                     forEach (stocks st) (fetchStockData false)) st)).
    { apply busy_preserved; [|exact H]. intros l0 B.
      preserve keepsBusy_frame. apply keepsBusy_fetchStockData. }
    unfold exec in Hb.
    match type of Hb with context [match ?x with _ => _ end] => by destruct x end.
  - intros v s H. exact H.
  - intros s H. apply busy_preserved; [|exact H]. intros; apply keepsBusy_addStock.
  - intros s s0 H. apply busy_preserved; [|exact H]. intros; apply keepsBusy_removeStock.
  - intros s s0 H. apply busy_preserved; [|exact H]. intros; apply keepsBusy_showChart.
  - intros p t s _ H. apply busy_preserved; [|exact H]. intros; apply keepsBusy_showHistory.
  - (* the click on a prediction button *)
    clear. intros t st Hclick [Hnd Hbusy]. unfold showPrediction, exec. monad.
    destruct (falsy (currentSymbol st)); [by split|].
    unfold clickable in Hclick.
    destruct (buttons st !! t) as [b|] eqn:Hb; [|discriminate].
    apply negb_true_iff in Hclick.
    assert (Hnew : t ∉ predictingButtons st).
    { intros Hin. destruct (Hbusy t Hin) as (b' & Hb' & Hd & _). congruence. }
    split.
    + rewrite predictingButtons_fetch. cbn [heldButton].
      apply NoDup_app. split; [exact Hnd|]. split; [|apply NoDup_singleton].
      intros x Hx Hx'. apply list_elem_of_singleton in Hx'. by subst x.
    + intros btn Hin. rewrite predictingButtons_fetch in Hin. cbn [heldButton] in Hin.
      unfold busyAt. cbn [buttons setInflight setButtons].
      apply elem_of_app in Hin as [Hin|Hin].
      * destruct (Hbusy btn Hin) as (b' & Hb' & Hd).
        exists b'. split; [|exact Hd].
        rewrite list_lookup_alter_ne; [exact Hb'|]. intros <-. by apply Hnew.
      * apply list_elem_of_singleton in Hin. subst btn.
        rewrite list_lookup_alter_eq, Hb. eexists. by split.
  - (* the answer to a request *)
    clear. intros st i url k p m Hi Hm H.
    destruct k, p; cbn [resume] in Hm; injection Hm as <- || discriminate.
    + assert (H0 : busyWhilePredicting (setInflight (delete i (inflight st)) st)).
      { destruct H as [Hnd Hb]. unfold busyWhilePredicting, predictingButtons in *.
        cbn [inflight setInflight]. by rewrite (omap_delete_None _ _ _ _ Hi). }
      apply busy_preserved; [|exact H0]. intros; apply keepsBusy_fetchStockData_resume.
    + assert (H0 : busyWhilePredicting (setInflight (delete i (inflight st)) st)).
      { destruct H as [Hnd Hb]. unfold busyWhilePredicting, predictingButtons in *.
        cbn [inflight setInflight]. by rewrite (omap_delete_None _ _ _ _ Hi). }
      apply busy_preserved; [|exact H0]. intros; apply keepsBusy_fetchHistory_resume.
    + destruct r as [|error|fc].
      * eapply (busy_released st); [exact H | exact Hi | reflexivity | |]; reflexivity.
      * eapply (busy_released st); [exact H | exact Hi | reflexivity | |]; reflexivity.
      * (* the history request takes the place of the prediction request *)
        destruct H as [Hnd Hbusy].
        destruct (omap_delete_Some (fun request => heldButton request.2) _ i _ btn Hi eq_refl)
          as (l1 & l2 & Hall & Hdel).
        unfold showPrediction_resume, exec. monad.
        unfold busyWhilePredicting. rewrite predictingButtons_fetch.
        unfold predictingButtons in *. cbn [inflight setInflight heldButton].
        rewrite Hdel. rewrite Hall in Hnd, Hbusy.
        apply NoDup_app in Hnd as (Hnd1 & Hdisj & Hnd2).
        apply NoDup_cons in Hnd2 as [Hnot2 Hnd2].
        split.
        -- apply NoDup_app. split; [|split; [|apply NoDup_singleton]].
           ++ apply NoDup_app. split; [exact Hnd1|]. split; [|exact Hnd2].
              intros x Hx Hx'. apply (Hdisj x Hx). by right.
           ++ intros x Hx Hx'. apply list_elem_of_singleton in Hx'. subst x.
              apply elem_of_app in Hx as [Hx|Hx]; [|done].
              apply (Hdisj btn Hx). left.
        -- intros b' Hb'.
           assert (Hold : busyAt st b').
           { apply Hbusy. apply elem_of_app in Hb' as [Hb'|Hb'].
             - apply elem_of_app in Hb' as [Hb'|Hb'];
                 apply elem_of_app; [by left | right; by right].
             - apply list_elem_of_singleton in Hb'. subst b'.
               apply elem_of_app. right. left. }
           exact Hold.
    + eapply (busy_released st); [exact H | exact Hi | reflexivity | |].
      * by rewrite inflight_showPrediction_resume2.
      * by rewrite buttons_showPrediction_resume2.
  - intros s i H. exact H.
Qed.

Lemma busy_initial saved bs : busyWhilePredicting (initial saved bs).
Proof. split; [apply NoDup_nil_2 | intros btn Hin; by apply elem_of_nil in Hin]. Qed.

(** X13: a button stays disabled for as long as its prediction is awaited.
    In every state of a run, each prediction or history request of
    [showPrediction] in flight holds a button of the page that is disabled
    and reads "Loading prediction...", and no two of these requests hold the
    same button: a second prediction is never started from a button before
    the first has ended. *)
Theorem busy_while_predicting (saved : option string) (bs : list button)
    (evs : list event) (st : State) :
  run (initial saved bs) evs = Some st ->
  NoDup (predictingButtons st) /\
  forall i url k btn,
    inflight st !! i = Some (url, k) -> heldButton k = Some btn ->
    exists b, buttons st !! btn = Some b /\
      disabled b = true /\ textContent b = "Loading prediction..." /\
      step st (ClickPrediction btn) = None.
Proof.
  intros Hrun.
  assert (H : busyWhilePredicting st).
  { eapply (run_invariant busyWhilePredicting); [apply busy_step | | exact Hrun].
    apply busy_initial. }
  destruct H as [Hnd Hbusy]. split; [exact Hnd|].
  intros i url k btn Hi Hk.
  destruct (Hbusy btn) as (b & Hb & Hd & Ht).
  { unfold predictingButtons. apply list_elem_of_omap. exists (url, k).
    split; [by eapply list_elem_of_lookup_2 | exact Hk]. }
  exists b. repeat split; try done.
  cbn [step]. unfold clickable. by rewrite Hb, Hd.
Qed.

Lemma busy_while_predicting_witness :
  exists b, buttons Sample.predicting !! 1 = Some b /\ disabled b = true.
Proof.
  destruct (busy_while_predicting None [Sample.periodButton; Sample.predictButton]
              [ Input "aapl  "; ClickAdd;
                Answer 0 (QuoteReply (Ok (Sample.quote "AAPL"))); ClickCard 0 false;
                Answer 0 (HistoryReply (Ok Sample.history)); ClickPrediction 1 ]
              Sample.predicting) as [_ H]; [vm_compute; reflexivity|].
  destruct (H 0 "http://localhost:5000/api/predict/AAPL?days=7" (AfterPredict 1) 1
              eq_refl eq_refl) as (b & Hb & Hd & _).
  exists b. by split.
Defined.

(** ** Requests in flight and timers *)

(** One step keeps a property that each handler keeps however it
    completes. *)
Lemma step_preserves (P : State -> Prop) :
  (forall v st, P st -> P (setStockSymbol v st)) ->
  (forall st i, P st -> P (setInflight (delete i (inflight st)) st)) ->
  (forall st i, P st -> P (setTimers (delete i (timers st)) st)) ->
  (forall l st, P st -> P (setStocks l st)) ->
  preserves P addStock ->
  (forall s, preserves P (removeStock s)) ->
  (forall s, preserves P (showChart s)) ->
  (forall p t, preserves P (showHistory p t)) ->
  (forall t, preserves P (showPrediction t)) ->
  (forall b s, preserves P (fetchStockData b s)) ->
  (forall k p m, resume k p = Some m -> preserves P m) ->
  forall st ev st', P st -> step st ev = Some st' -> P st'.
Proof.
  intros Hinput Hanswer Htimer Hstocks Hadd Hremove Hchart Hhistory Hpredict
    Hfetch Hresume.
  apply step_invariant.
  - intros st c H E. unfold onDOMContentLoaded in E.
    destruct (localStorage st) as [saved|]; [|by injection E as <-].
    destruct (Js.falsy saved); [by injection E as <-|].
    destruct (Json.parse saved) as [[]|]; try discriminate; [|by injection E as <-].
    destruct (Json.strings items) as [l|]; [|discriminate].
    injection E as <-.
    assert (Hp : preserves P
              (modify (setStocks l) ;; st ← get; forEach (stocks st) (fetchStockData false))).
    { apply preserves_bind; [apply preserves_modify; intros; by apply Hstocks|].
      intros _. apply preserves_bind; [apply preserves_get|]. intros s.
      apply preserves_forEach. intros x. apply Hfetch. }
    specialize (Hp st H). unfold final.
    match type of Hp with match ?x with _ => _ end => by destruct x end.
  - exact Hinput.
  - intros st H. by apply preserves_exec.
  - intros s st H. by apply preserves_exec.
  - intros s st H. by apply preserves_exec.
  - intros p t st _ H. by apply preserves_exec.
  - intros t st _ H. by apply preserves_exec.
  - intros st i url k p m _ Hm H. apply preserves_exec; [by eapply Hresume|].
    by apply Hanswer.
  - intros st i H. by apply Htimer.
Qed.

(** Decompose the handlers of [app.js] down to the writes; [frame] closes
    the goals on writes, [special] the handlers it knows. *)
Ltac handlers frame special :=
  unfold addStock, removeStock, showChart, showHistory, showPrediction, fetchHistory,
    fetchStockData_resume, fetchHistory_resume, showPrediction_resume,
    showPrediction_resume2, displayStock;
  preserve frame;
  try solve [special];
  unfold showAlert, consoleError, setTimeout, setItem, fetch, onElement,
    removeElement, deactivateAll, activate, release;
  preserve frame.

(** *** Timers *)

Ltac timersOK_frame :=
  idtac; match goal with H : timersOK _ |- timersOK _ => exact H end.

Lemma timersOK_setTimeout s : preserves timersOK (setTimeout s 3000).
Proof.
  intros st H. unfold setTimeout, modify, timersOK in *. cbn [timers setTimers].
  apply Forall_app. split; [exact H|]. by apply Forall_singleton.
Qed.

Lemma timersOK_drawChart lbls d t split : preserves timersOK (drawChart lbls d t split).
Proof.
  intros st H. rewrite drawChart_normal, drawChart_exec.
  unfold newChart, destroyCurrent. by destruct (currentChart st).
Qed.

Lemma timersOK_fetchStockData b s : preserves timersOK (fetchStockData b s).
Proof.
  intros st H. unfold fetchStockData, createCard. monad.
  by destruct (getElementById _ st).
Qed.

Lemma timersOK_step st ev st' : timersOK st -> step st ev = Some st' -> timersOK st'.
Proof.
  revert st ev st'. apply step_preserves.
  - intros v st H. exact H.
  - intros st i H. exact H.
  - intros st i H. by apply Forall_delete.
  - intros l st H. exact H.
  - handlers timersOK_frame ltac:(apply timersOK_fetchStockData).
  - intros s. handlers timersOK_frame fail.
  - intros s. handlers timersOK_frame fail.
  - intros p t. handlers timersOK_frame fail.
  - intros t. handlers timersOK_frame fail.
  - apply timersOK_fetchStockData.
  - intros k p m Hm. destruct k, p; cbn [resume] in Hm; injection Hm as <- || discriminate;
      handlers timersOK_frame
        ltac:(first [apply timersOK_setTimeout | apply timersOK_drawChart]).
Qed.

(** X14: every timer the program sets is one of three seconds: in every
    state of a run, each pending timer has a delay of 3000 ms. *)
Theorem timers_three_seconds (saved : option string) (bs : list button)
    (evs : list event) (st : State) :
  run (initial saved bs) evs = Some st ->
  forall i t, timers st !! i = Some t -> delay t = 3000.
Proof.
  intros Hrun i t Hi.
  assert (H : timersOK st).
  { eapply (run_invariant timersOK); [apply timersOK_step | | exact Hrun].
    apply Forall_nil_2. }
  unfold timersOK in H. rewrite Forall_forall in H. apply H.
  by eapply list_elem_of_lookup_2.
Qed.

Lemma timers_three_seconds_witness :
  exists t, timers Sample.failed !! 0 = Some t /\ delay t = 3000.
Proof.
  exists {| delay := 3000; removes := "ZZZZ" |}. split; [reflexivity|].
  apply (timers_three_seconds None [Sample.periodButton; Sample.predictButton]
           [ Input "zzzz"; ClickAdd; Answer 0 (QuoteReply Rejected) ]
           Sample.failed ltac:(vm_compute; reflexivity) 0).
  reflexivity.
Defined.

(** *** Requests *)

Ltac requestsOK_frame :=
  idtac; match goal with H : requestsOK _ |- requestsOK _ => exact H end.

(** A request stays well formed when identities are only added and the
    cards created so far keep their ids. *)
Lemma requestOK_mono (st st' : State) (request : string * continuation) :
  nextId st <= nextId st' ->
  (forall c, c ∈ stockCards st' -> element c < nextId st ->
     exists c0, c0 ∈ stockCards st /\ element c0 = element c /\
                elementId c0 = elementId c) ->
  requestOK st request -> requestOK st' request.
Proof.
  intros Hnext Hcards. unfold requestOK. destruct (request.2); try done.
  intros (Hurl & Hlt & Hid). split; [exact Hurl|]. split; [lia|].
  intros c Hc He. destruct (Hcards c Hc) as (c0 & Hc0 & He0 & Hid0); [lia|].
  rewrite <- Hid0. apply Hid; [exact Hc0 | congruence].
Qed.

Lemma requestsOK_fetch url k :
  (forall st, requestOK st (url, k)) -> preserves requestsOK (fetch url k).
Proof.
  intros Hk st [Hf Hr]. unfold fetch, modify. split; [exact Hf|].
  cbn [inflight setInflight]. apply Forall_app. split; [exact Hr|].
  apply Forall_singleton. apply (Hk st).
Qed.

Lemma requestsOK_onElement e f :
  (forall c, element (f c) = element c) ->
  (forall c, elementId (f c) = elementId c) ->
  preserves requestsOK (onElement e f).
Proof.
  intros He Hid st [Hf Hr]. split; [by apply freshElements_onElement|].
  unfold onElement, modify. cbn [inflight setStockCards].
  eapply Forall_impl; [exact Hr|]. intros request.
  apply requestOK_mono; [done|]. cbn [stockCards setStockCards].
  intros c Hc _. apply list_elem_of_fmap in Hc as (c0 & -> & Hc0).
  exists c0. split; [exact Hc0|]. by destruct (bool_decide _).
Qed.

Lemma requestsOK_removeElement e : preserves requestsOK (removeElement e).
Proof.
  intros st [Hf Hr]. split; [by apply freshElements_removeElement|].
  unfold removeElement, modify. cbn [inflight setStockCards].
  eapply Forall_impl; [exact Hr|]. intros request.
  apply requestOK_mono; [done|]. cbn [stockCards setStockCards].
  intros c Hc _. apply list_elem_of_filter in Hc as [_ Hc]. by exists c.
Qed.

Lemma requestsOK_drawChart lbls d t split :
  preserves requestsOK (drawChart lbls d t split).
Proof.
  intros st [Hf Hr].
  pose proof (freshElements_drawChart lbls d t split st Hf) as Hf'.
  rewrite drawChart_normal in *. split; [exact Hf'|].
  rewrite drawChart_exec.
  assert (Hi : inflight (newChart {| chartType := "line"; labels := lbls;
                                     datasets := makeDatasets d split; title := t |}
                           (destroyCurrent st)) = inflight st)
    by (unfold newChart, destroyCurrent; by destruct (currentChart st)).
  rewrite Hi. eapply Forall_impl; [exact Hr|]. intros request.
  apply requestOK_mono.
  - unfold newChart. cbn. rewrite nextId_destroyCurrent. lia.
  - intros c Hc _. exists c. split; [|done].
    revert Hc. unfold newChart, destroyCurrent. by destruct (currentChart st).
Qed.

Lemma requestsOK_fetchStockData b s : preserves requestsOK (fetchStockData b s).
Proof.
  intros st [Hf Hr].
  pose proof (freshElements_fetchStockData b s st Hf) as Hf'.
  revert Hf'. unfold fetchStockData, createCard. monad.
  destruct (getElementById _ st) as [card|] eqn:E; intros Hf'; (split; [exact Hf'|]);
    cbn [inflight setInflight]; apply Forall_app; split.
  - exact Hr.
  - apply Forall_singleton. unfold requestOK. cbn.
    apply getElementById_Some in E as [Hcard Hid]. destruct Hf as [Hnd Hlt].
    rewrite Forall_forall in Hlt. split; [done|]. split; [by apply Hlt|].
    intros c Hc He.
    by rewrite (NoDup_fmap_inj element (stockCards st) c card Hnd Hc Hcard He).
  - eapply Forall_impl; [exact Hr|]. intros request.
    apply requestOK_mono; [cbn; lia|]. cbn [stockCards setStockCards setInflight].
    intros c Hc Hlt. apply elem_of_app in Hc as [Hc|Hc]; [by exists c|].
    apply list_elem_of_singleton in Hc. subst c. cbn in Hlt. lia.
  - apply Forall_singleton. unfold requestOK. cbn. split; [done|]. split; [lia|].
    intros c Hc He. apply elem_of_app in Hc as [Hc|Hc].
    + destruct Hf as [_ Hlt]. rewrite Forall_forall in Hlt.
      specialize (Hlt c Hc). cbn in Hlt. lia.
    + apply list_elem_of_singleton in Hc. by subst c.
Qed.

Lemma requestsOK_step st ev st' : requestsOK st -> step st ev = Some st' -> requestsOK st'.
Proof.
  revert st ev st'. apply step_preserves.
  - intros v st H. exact H.
  - intros st i [Hf Hr]. split; [exact Hf|]. by apply Forall_delete.
  - intros st i H. exact H.
  - intros l st H. exact H.
  - handlers requestsOK_frame ltac:(apply requestsOK_fetchStockData).
  - intros s. handlers requestsOK_frame ltac:(apply requestsOK_removeElement).
  - intros s. handlers requestsOK_frame
      ltac:(apply requestsOK_fetch; intros; cbn; by eexists).
  - intros p t. handlers requestsOK_frame
      ltac:(apply requestsOK_fetch; intros; cbn; by eexists).
  - intros t. handlers requestsOK_frame
      ltac:(apply requestsOK_fetch; intros; cbn; by eexists).
  - apply requestsOK_fetchStockData.
  - intros k p m Hm. destruct k, p; cbn [resume] in Hm; injection Hm as <- || discriminate;
      handlers requestsOK_frame
        ltac:(first [ by apply requestsOK_onElement
                    | apply requestsOK_drawChart
                    | apply requestsOK_fetch; intros; cbn; by do 2 eexists ]).
Qed.

Lemma requestsOK_initial saved bs : requestsOK (initial saved bs).
Proof. split; [apply freshElements_initial | apply Forall_nil_2]. Qed.

(** X15: requests go to the endpoint of the handler that awaits them.  In
    every state of a run, a request awaited by [fetchStockData] for a symbol
    has the URL [/stock/<symbol>], and the card it will write to, if still
    in the document, is the card [stock-<symbol>]; a request awaited by
    [fetchHistory] has a URL [/history/<symbol>?period=...] for its symbol;
    a request awaited by [showPrediction] has a URL [/predict/...?days=7],
    and its history request a URL [/history/...?period=...]. *)
Theorem requests_well_formed (saved : option string) (bs : list button)
    (evs : list event) (st : State) (i : nat) (url : string) (k : continuation) :
  run (initial saved bs) evs = Some st ->
  inflight st !! i = Some (url, k) ->
  match k with
  | AfterQuote s card _ =>
      url = API_URL +:+ "/stock/" +:+ s /\
      forall c, c ∈ stockCards st -> element c = card -> elementId c = "stock-" +:+ s
  | AfterHistory s =>
      exists period, url = API_URL +:+ "/history/" +:+ s +:+ "?period=" +:+ period
  | AfterPredict _ =>
      exists s, url = API_URL +:+ "/predict/" +:+ s +:+ "?days=7"
  | AfterPredictHistory _ _ =>
      exists s period, url = API_URL +:+ "/history/" +:+ s +:+ "?period=" +:+ period
  end.
Proof.
  intros Hrun Hi.
  assert (H : requestsOK st).
  { eapply (run_invariant requestsOK); [apply requestsOK_step | | exact Hrun].
    apply requestsOK_initial. }
  destruct H as [_ H]. rewrite Forall_forall in H.
  specialize (H (url, k) (list_elem_of_lookup_2 _ _ _ Hi)).
  unfold requestOK in H. cbn in H. destruct k; try exact H.
  destruct H as (Hurl & _ & Hid). by split.
Qed.

Lemma requests_well_formed_witness :
  exists period,
    "http://localhost:5000/api/history/AAPL?period=1mo"
    = API_URL +:+ "/history/" +:+ "AAPL" +:+ "?period=" +:+ period.
Proof.
  exact (requests_well_formed None [Sample.periodButton; Sample.predictButton]
           [ Input "aapl  "; ClickAdd;
             Answer 0 (QuoteReply (Ok (Sample.quote "AAPL"))); ClickCard 0 false ]
           Sample.opening 0 "http://localhost:5000/api/history/AAPL?period=1mo"
           (AfterHistory "AAPL") ltac:(vm_compute; reflexivity) eq_refl).
Defined.

(** ** Cards *)










Lemma stock_inj (s s' : string) : "stock-" +:+ s = "stock-" +:+ s' -> s = s'.
Proof. by intros [=]. Qed.




(** ** Loading the cards *)

Lemma getElementById_app_None (id : string) (st : State) (c : card) :
  getElementById id st = None -> elementId c <> id ->
  getElementById id (setStockCards (stockCards st ++ [c]) st) = None.
Proof.
  intros Hnone Hne. unfold getElementById in *. cbn [stockCards setStockCards].
  induction (stockCards st) as [|a l IH]; cbn [app List.find] in *.
  - by rewrite bool_decide_eq_false_2.
  - destruct (bool_decide (elementId a = id)); [discriminate|]. by apply IH.
Qed.

Lemma forEach_loadingCards (l : list string) (st : State) :
  NoDup l ->
  (forall s, s ∈ l -> getElementById ("stock-" +:+ s) st = None) ->
  exists st',
    forEach l (fetchStockData false) st = Normal tt st' /\
    stockCards st' = stockCards st ++ imap (fun i s => loadingCard (nextId st + i) s) l /\
    inflight st' = inflight st ++
      imap (fun i s => (API_URL +:+ "/stock/" +:+ s, AfterQuote s (nextId st + i) false)) l.
Proof.
  revert st. induction l as [|s l IH]; intros st Hnd Hnone.
  - exists st. cbn [imap]. by rewrite !app_nil_r.
  - apply NoDup_cons in Hnd as [Hs Hnd].
    set (st1 := setInflight
                  (inflight st ++
                     [(API_URL +:+ "/stock/" +:+ s, AfterQuote s (nextId st) false)])
                  (setStockCards (stockCards st ++ [loadingCard (nextId st) s])
                     (setNextId (S (nextId st)) st))).
    assert (H1 : fetchStockData false s st = Normal tt st1).
    { unfold fetchStockData, createCard. monad.
      by rewrite (Hnone s) by left. }
    destruct (IH st1 Hnd) as (st' & Hrun & Hcards & Hin).
    { intros s' Hs'. subst st1.
      change (getElementById ?id (setInflight _ ?x)) with (getElementById id x).
      apply (getElementById_app_None _ (setNextId (S (nextId st)) st)
               (loadingCard (nextId st) s)).
      - change (getElementById ?id (setNextId _ ?x)) with (getElementById id x).
        apply Hnone. by right.
      - cbn. intros Heq%stock_inj. by subst s'. }
    exists st'. cbn [forEach]. unfold mbind, M_bind. rewrite H1, Hrun.
    split; [reflexivity|]. subst st1.
    cbn [stockCards inflight nextId setInflight setStockCards setNextId] in Hcards, Hin.
    rewrite Hcards, Hin, <- !app_assoc. cbn [imap app]. rewrite Nat.add_0_r.
    split; do 2 f_equal; apply imap_ext; intros i x _; cbn;
      by replace (S (nextId st + i)) with (nextId st + S i) by lia.
Qed.

(** X17: a fresh page opened on the entry written for a watchlist without
    duplicates shows the watchlist again: the listener of [DOMContentLoaded]
    makes it the current watchlist, puts one card per symbol in the
    document, in the order of the watchlist, each with the id of its symbol
    and the loading placeholder, and one quote request per symbol in flight,
    each holding the card of its symbol. *)
Theorem load_shows_cards (l : list string) (bs : list button) :
  NoDup l ->
  exists st',
    onDOMContentLoaded (initial (Some (Json.stringify l)) bs) = Some (Normal tt st') /\
    stocks st' = l /\
    stockCards st' = imap loadingCard l /\
    inflight st' =
      imap (fun i s => (API_URL +:+ "/stock/" +:+ s, AfterQuote s i false)) l.
Proof.
  intros Hnd. unfold onDOMContentLoaded. cbn [localStorage initial].
  rewrite JsonFacts.stringify_not_empty, JsonFacts.parse_stringify,
    JsonFacts.strings_Str.
  destruct (forEach_loadingCards l
              (setStocks l (initial (Some (Json.stringify l)) bs)) Hnd)
    as (st' & Hrun & Hcards & Hin); [done|].
  destruct (forEach_fetchStockData l
              (setStocks l (initial (Some (Json.stringify l)) bs)))
    as (st'' & Hrun' & Hs & _).
  assert (st'' = st') as -> by congruence.
  exists st'. monad. cbn [stocks setStocks]. rewrite Hrun.
  split; [reflexivity|]. split; [exact Hs|]. split; [exact Hcards | exact Hin].
Qed.

Lemma load_shows_cards_witness :
  exists st',
    onDOMContentLoaded (initial (Some (Json.stringify ["AAPL"; "MSFT"])) [])
    = Some (Normal tt st') /\
    (elementId <$> stockCards st') = ["stock-AAPL"; "stock-MSFT"].
Proof.
  destruct (load_shows_cards ["AAPL"; "MSFT"] []) as (st' & Hrun & _ & Hcards & _).
  - apply (bool_decide_unpack _). by vm_compute.
  - exists st'. split; [exact Hrun|]. by rewrite Hcards.
Defined.
